(** * Ubon Computer Speccom V.3: compatibility, filter and quote engine

    Shallow embedding of the engine functions of the single-page
    application (App component source):

    - [estimateWattage], [checkCompatibility]   (compatibility checker)
    - [applyAttrFilters]                        (attribute filter applier)
    - [deriveFiltersFromSelection]              (Smart Sync)
    - the arithmetic of [Summary]               (quote calculator)
    - [selectBase], [addAddon], [updateAddonQty], [removeAddon] and the
      add-as-option button of the search dialog (selection updates)

    Modelling conventions.

    - A JavaScript [number] is an exact rational ([Q]); equalities between
      computed amounts are stated with [==].  NaN, infinities and rounding
      are outside the model.
    - [x || 0] on a number is [or0]; [x || []] on an array is [default []].
    - [Partial<Record<BaseCategory, Product>>] is a [gmap BaseCategory Product].
    - [attributes : Record<string, any>] is the record [Attributes] of the
      keys the engine reads, each optional ([None] is a missing key), with
      the value shapes used by the demo inventory and the product editor:
      strings, numbers and arrays of strings.
    - A template literal is kept as a constructor of [Msg] whose arguments
      are the interpolated values. *)

From Stdlib Require Import QArith Qminmax.
From stdpp Require Import base option list strings gmap.

Local Open Scope Q_scope.

(** ** Categories *)

Inductive BaseCategory :=
  CPU | Motherboard | GPU | RAM | Storage | PSU | Case | Cooler.

Inductive AddonCategory := Monitor | Software | SSD.

Inductive Category :=
  | Base (c : BaseCategory)
  | Addon (c : AddonCategory).

Definition BASE_CATEGORIES : list BaseCategory :=
  [CPU; Motherboard; GPU; RAM; Storage; PSU; Case; Cooler].

Definition ADDON_CATEGORIES : list AddonCategory := [Monitor; Software; SSD].

#[global] Instance BaseCategory_eq_dec : EqDecision BaseCategory.
Proof. solve_decision. Defined.

Definition BaseCategory_index (c : BaseCategory) : nat :=
  match c with
  | CPU => 0 | Motherboard => 1 | GPU => 2 | RAM => 3
  | Storage => 4 | PSU => 5 | Case => 6 | Cooler => 7
  end%nat.

#[global] Instance BaseCategory_countable : Countable BaseCategory.
Proof.
  refine (inj_countable' BaseCategory_index
            (fun n => nth n BASE_CATEGORIES CPU) _).
  intros []; reflexivity.
Defined.

(** ** Products *)

Record Attributes := {
  a_socket : option string;
  a_tdp : option Q;
  a_ramType : option string;
  a_formFactor : option string;
  a_pcieSlots : option Q;
  a_storage : option (list string);
  a_formFactorSupport : option (list string);
  a_socketSupport : option (list string);
  a_interface : option string;
  a_wattage : option Q;
  a_type : option string
}.

Definition noAttributes : Attributes :=
  {| a_socket := None; a_tdp := None; a_ramType := None;
     a_formFactor := None; a_pcieSlots := None; a_storage := None;
     a_formFactorSupport := None; a_socketSupport := None;
     a_interface := None; a_wattage := None; a_type := None |}.

Record Product := {
  id : string;
  name : string;
  category : Category;
  price : Q;
  stock : Q;
  cost : option Q;
  attributes : Attributes
}.

Record AddonEntry := {
  entry_id : string;
  product : Product;
  qty : Q
}.

Record BuildState := {
  base : gmap BaseCategory Product;
  addons : list AddonEntry
}.

(** ** JavaScript primitives used by the engine *)

(** Truthiness of an optional string: missing and the empty string are falsy. *)
Definition truthy_str (x : option string) : bool :=
  match x with
  | Some s => negb (String.eqb s "")
  | None => false
  end.

(** Truthiness of an optional number: missing and zero are falsy. *)
Definition truthy_num (x : option Q) : bool :=
  match x with
  | Some q => negb (Qeq_bool q 0)
  | None => false
  end.

(** [x || 0] for an optional number. *)
Definition or0 (x : option Q) : Q :=
  match x with
  | Some q => if Qeq_bool q 0 then 0 else q
  | None => 0
  end.

(** [a < b] on numbers. *)
Definition Qltb (a b : Q) : bool := negb (Qle_bool b a).

(** [a === b] on optional strings ([undefined === undefined] holds). *)
Definition strict_eq (a b : option string) : bool := bool_decide (a = b).

(** [arr.includes(x)] for an array of strings; a missing [x] is never found. *)
Definition includes (arr : list string) (x : option string) : bool :=
  match x with
  | Some s => bool_decide (s ∈ arr)
  | None => false
  end.

(** [parts[c]?.attributes?.k]: a missing part has every attribute missing. *)
Definition attr {A} (parts : gmap BaseCategory Product) (c : BaseCategory)
    (k : Attributes -> option A) : option A :=
  match parts !! c with
  | Some p => k (attributes p)
  | None => None
  end.

(** ** Compatibility *)

Definition estimateWattage (parts : gmap BaseCategory Product) : Q :=
  let cpu := or0 (attr parts CPU a_tdp) in
  let gpu := or0 (attr parts GPU a_tdp) in
  cpu + gpu + 100.

Inductive Level := ok | warn | error.

#[global] Instance Level_eq_dec : EqDecision Level.
Proof. solve_decision. Defined.

(** The seven rules of the checker, one per [notes.push] of the source. *)
Inductive Rule :=
  | SocketRule | RamRule | PcieRule | CaseRule
  | CoolerRule | StorageRule | PsuRule.

#[global] Instance Rule_eq_dec : EqDecision Rule.
Proof. solve_decision. Defined.

(** Note texts.  Each constructor stands for one string or template literal
    of [checkCompatibility]; the arguments are the values interpolated into
    the template, in the order in which they occur in it. *)
Inductive Msg :=
  | MsgSocketOk
  | MsgSocketMismatch (cpuSocket mbSocket : option string)
  | MsgRamOk
  | MsgRamMismatch (ramType mbRamType : option string)
  | MsgPcieOk
  | MsgPcieMissing
  | MsgCaseOk
  | MsgCaseMismatch (caseSupport : list string) (mbFormFactor : option string)
  | MsgCoolerOk
  | MsgCoolerMismatch (cpuSocket : option string)
  | MsgStorageOk
  | MsgStorageMismatch (storageInterface : option string) (mbStorage : list string)
  | MsgPsuLow (has need : Q)
  | MsgPsuOk (need : Q).

Record Note := { level : Level; msg : Msg }.

Record CompatibilityReport := {
  report_level : Level;
  notes : list Note
}.

(** The rule a note text belongs to. *)
Definition rule_of (m : Msg) : Rule :=
  match m with
  | MsgSocketOk | MsgSocketMismatch _ _ => SocketRule
  | MsgRamOk | MsgRamMismatch _ _ => RamRule
  | MsgPcieOk | MsgPcieMissing => PcieRule
  | MsgCaseOk | MsgCaseMismatch _ _ => CaseRule
  | MsgCoolerOk | MsgCoolerMismatch _ => CoolerRule
  | MsgStorageOk | MsgStorageMismatch _ _ => StorageRule
  | MsgPsuLow _ _ | MsgPsuOk _ => PsuRule
  end.

(** [if (cpu && mb) notes.push(cpu.attributes.socket===mb.attributes.socket ? ... : ...)] *)
Definition socketNotes (parts : gmap BaseCategory Product) : list Note :=
  match parts !! CPU, parts !! Motherboard with
  | Some cpu, Some mb =>
      [ if strict_eq (a_socket (attributes cpu)) (a_socket (attributes mb))
        then {| level := ok; msg := MsgSocketOk |}
        else {| level := error;
                msg := MsgSocketMismatch (a_socket (attributes cpu))
                                         (a_socket (attributes mb)) |} ]
  | _, _ => []
  end.

(** [if (ram && mb) notes.push(ram.attributes.type===mb.attributes.ramType ? ... : ...)] *)
Definition ramNotes (parts : gmap BaseCategory Product) : list Note :=
  match parts !! RAM, parts !! Motherboard with
  | Some ram, Some mb =>
      [ if strict_eq (a_type (attributes ram)) (a_ramType (attributes mb))
        then {| level := ok; msg := MsgRamOk |}
        else {| level := error;
                msg := MsgRamMismatch (a_type (attributes ram))
                                      (a_ramType (attributes mb)) |} ]
  | _, _ => []
  end.

(** [if (gpu && mb) notes.push(mb.attributes.pcieSlots ? ... : ...)] *)
Definition pcieNotes (parts : gmap BaseCategory Product) : list Note :=
  match parts !! GPU, parts !! Motherboard with
  | Some gpu, Some mb =>
      [ if truthy_num (a_pcieSlots (attributes mb))
        then {| level := ok; msg := MsgPcieOk |}
        else {| level := error; msg := MsgPcieMissing |} ]
  | _, _ => []
  end.

(** [if (pcCase && mb){ const ok=(formFactorSupport||[]).includes(mb.formFactor); ... }] *)
Definition caseNotes (parts : gmap BaseCategory Product) : list Note :=
  match parts !! Case, parts !! Motherboard with
  | Some pcCase, Some mb =>
      let support := default [] (a_formFactorSupport (attributes pcCase)) in
      let ok_ := includes support (a_formFactor (attributes mb)) in
      [ if ok_
        then {| level := ok; msg := MsgCaseOk |}
        else {| level := error;
                msg := MsgCaseMismatch support (a_formFactor (attributes mb)) |} ]
  | _, _ => []
  end.

(** [if (cooler && cpu){ const ok=(socketSupport||[]).includes(cpu.socket); ... }] *)
Definition coolerNotes (parts : gmap BaseCategory Product) : list Note :=
  match parts !! Cooler, parts !! CPU with
  | Some cooler, Some cpu =>
      let ok_ := includes (default [] (a_socketSupport (attributes cooler)))
                          (a_socket (attributes cpu)) in
      [ if ok_
        then {| level := ok; msg := MsgCoolerOk |}
        else {| level := error;
                msg := MsgCoolerMismatch (a_socket (attributes cpu)) |} ]
  | _, _ => []
  end.

(** [if (storage && mb){ if (storage.interface && mb.storage){ ... } }]:
    an array is truthy even when empty. *)
Definition storageNotes (parts : gmap BaseCategory Product) : list Note :=
  match parts !! Storage, parts !! Motherboard with
  | Some storage, Some mb =>
      match a_storage (attributes mb) with
      | Some mbStorage =>
          if truthy_str (a_interface (attributes storage)) then
            let ok_ := includes mbStorage (a_interface (attributes storage)) in
            [ if ok_
              then {| level := ok; msg := MsgStorageOk |}
              else {| level := error;
                      msg := MsgStorageMismatch
                               (a_interface (attributes storage)) mbStorage |} ]
          else []
      | None => []
      end
  | _, _ => []
  end.

(** [if (psu){ const need=estimateWattage(parts), has=psu.wattage||0; ... }] *)
Definition psuNotes (parts : gmap BaseCategory Product) : list Note :=
  match parts !! PSU with
  | Some psu =>
      let need := estimateWattage parts in
      let has := or0 (a_wattage (attributes psu)) in
      [ if Qltb has need
        then {| level := warn; msg := MsgPsuLow has need |}
        else {| level := ok; msg := MsgPsuOk need |} ]
  | None => []
  end.

Definition is_level (l : Level) (n : Note) : bool := bool_decide (level n = l).

Definition checkCompatibility (parts : gmap BaseCategory Product)
    : CompatibilityReport :=
  let notes :=
    socketNotes parts ++ ramNotes parts ++ pcieNotes parts ++ caseNotes parts
    ++ coolerNotes parts ++ storageNotes parts ++ psuNotes parts in
  let level :=
    if existsb (is_level error) notes then error
    else if existsb (is_level warn) notes then warn
    else ok in
  {| report_level := level; notes := notes |}.

(** ** Attribute filters *)

Record AttrFilters := {
  f_socket : option string;
  f_ramType : option string;
  f_formFactor : option string;
  f_storageInterface : option string;
  f_minPSUWatt : option Q;
  f_coolerSocket : option string
}.

(** The empty object [{}]. *)
Definition noFilters : AttrFilters :=
  {| f_socket := None; f_ramType := None; f_formFactor := None;
     f_storageInterface := None; f_minPSUWatt := None;
     f_coolerSocket := None |}.

(** [a !== b]. *)
Definition strict_ne (a b : option string) : bool := negb (strict_eq a b).

(** The callback of [items.filter] in [applyAttrFilters]; [false] is an
    early [return false], [true] the final [return true]. *)
Definition keep (cat : BaseCategory) (f : AttrFilters) (p : Product) : bool :=
  let a := attributes p in
  if truthy_str (f_socket f)
     && ((bool_decide (cat = CPU) && strict_ne (a_socket a) (f_socket f))
         || (bool_decide (cat = Motherboard) && strict_ne (a_socket a) (f_socket f)))
  then false
  else if truthy_str (f_ramType f) && bool_decide (cat = Motherboard)
          && strict_ne (a_ramType a) (f_ramType f)
  then false
  else if truthy_str (f_formFactor f) && bool_decide (cat = Motherboard)
          && strict_ne (a_formFactor a) (f_formFactor f)
  then false
  else if truthy_str (f_formFactor f) && bool_decide (cat = Case)
          && negb (includes (default [] (a_formFactorSupport a)) (f_formFactor f))
  then false
  else if truthy_str (f_storageInterface f) && bool_decide (cat = Storage)
          && strict_ne (a_interface a) (f_storageInterface f)
  then false
  else if truthy_str (f_storageInterface f) && bool_decide (cat = Motherboard)
          && negb (includes (default [] (a_storage a)) (f_storageInterface f))
  then false
  else if match f_minPSUWatt f with
          | Some w => bool_decide (cat = PSU) && Qltb (or0 (a_wattage a)) w
          | None => false
          end
  then false
  else if truthy_str (f_coolerSocket f) && bool_decide (cat = Cooler)
          && negb (includes (default [] (a_socketSupport a)) (f_coolerSocket f))
  then false
  else true.

Definition applyAttrFilters (cat : BaseCategory) (items : list Product)
    (f : AttrFilters) : list Product :=
  match items with
  | [] => items
  | _ => List.filter (keep cat f) items
  end.

(** ** Smart Sync: deriving the filters from the selection *)

Definition set_socket (v : option string) (f : AttrFilters) : AttrFilters :=
  {| f_socket := v; f_ramType := f_ramType f; f_formFactor := f_formFactor f;
     f_storageInterface := f_storageInterface f;
     f_minPSUWatt := f_minPSUWatt f; f_coolerSocket := f_coolerSocket f |}.

Definition set_ramType (v : option string) (f : AttrFilters) : AttrFilters :=
  {| f_socket := f_socket f; f_ramType := v; f_formFactor := f_formFactor f;
     f_storageInterface := f_storageInterface f;
     f_minPSUWatt := f_minPSUWatt f; f_coolerSocket := f_coolerSocket f |}.

Definition set_formFactor (v : option string) (f : AttrFilters) : AttrFilters :=
  {| f_socket := f_socket f; f_ramType := f_ramType f; f_formFactor := v;
     f_storageInterface := f_storageInterface f;
     f_minPSUWatt := f_minPSUWatt f; f_coolerSocket := f_coolerSocket f |}.

Definition set_storageInterface (v : option string) (f : AttrFilters)
    : AttrFilters :=
  {| f_socket := f_socket f; f_ramType := f_ramType f;
     f_formFactor := f_formFactor f; f_storageInterface := v;
     f_minPSUWatt := f_minPSUWatt f; f_coolerSocket := f_coolerSocket f |}.

Definition set_minPSUWatt (v : option Q) (f : AttrFilters) : AttrFilters :=
  {| f_socket := f_socket f; f_ramType := f_ramType f;
     f_formFactor := f_formFactor f;
     f_storageInterface := f_storageInterface f;
     f_minPSUWatt := v; f_coolerSocket := f_coolerSocket f |}.

Definition set_coolerSocket (v : option string) (f : AttrFilters) : AttrFilters :=
  {| f_socket := f_socket f; f_ramType := f_ramType f;
     f_formFactor := f_formFactor f;
     f_storageInterface := f_storageInterface f;
     f_minPSUWatt := f_minPSUWatt f; f_coolerSocket := v |}.

(** [if (c) next = upd(next)] *)
Definition when (c : bool) (upd : AttrFilters -> AttrFilters)
    (next : AttrFilters) : AttrFilters :=
  if c then upd next else next.

(** [Array.isArray(x) && x.length>0], and then [x[0]]. *)
Definition first_of (x : option (list string)) : option string :=
  match x with
  | Some (s :: _) => Some s
  | _ => None
  end.

Definition deriveFiltersFromSelection (base : gmap BaseCategory Product)
    (current : AttrFilters) : AttrFilters :=
  let next := current in
  let cpu_socket := attr base CPU a_socket in
  let mb_socket := attr base Motherboard a_socket in
  let mb_ramType := attr base Motherboard a_ramType in
  let mb_formFactor := attr base Motherboard a_formFactor in
  let storage_interface := attr base Storage a_interface in
  let mb_storage := attr base Motherboard a_storage in
  let psu := base !! PSU in
  let next := when (truthy_str cpu_socket) (set_socket cpu_socket) next in
  let next := when (negb (truthy_str cpu_socket) && truthy_str mb_socket)
                   (set_socket mb_socket) next in
  let next := when (truthy_str mb_ramType) (set_ramType mb_ramType) next in
  let next := when (truthy_str mb_formFactor)
                   (set_formFactor mb_formFactor) next in
  let next := when (truthy_str storage_interface)
                   (set_storageInterface storage_interface) next in
  let next := when (negb (truthy_str storage_interface)
                    && bool_decide (is_Some (first_of mb_storage)))
                   (set_storageInterface (first_of mb_storage)) next in
  let next := when (truthy_str cpu_socket) (set_coolerSocket cpu_socket) next in
  let next := when (bool_decide (is_Some psu))
                   (set_minPSUWatt (Some (Qmax (estimateWattage base) 0))) next in
  next.

(** ** Quote calculator: the arithmetic of [Summary] *)

Inductive DiscountType := none | percent | fixed.

Record Pricing := {
  discountType : DiscountType;
  discountValue : Q;
  vatEnabled : bool;
  vatPercent : Q;
  showCost : bool
}.

(** [x || 0] for a number that is always present. *)
Definition num_or0 (x : Q) : Q := or0 (Some x).

Definition baseSelected (build : BuildState) : list (BaseCategory * Product) :=
  omap (fun c => match base build !! c with
                 | Some p => Some (c, p)
                 | None => None
                 end) BASE_CATEGORIES.

Definition baseTotal (build : BuildState) : Q :=
  fold_left (fun s cp => s + price (snd cp)) (baseSelected build) 0.

Definition addonTotal (build : BuildState) : Q :=
  fold_left (fun s a => s + price (product a) * qty a) (addons build) 0.

Definition subtotal (build : BuildState) : Q :=
  baseTotal build + addonTotal build.

Definition missingRequired (build : BuildState) (required : list BaseCategory)
    : list BaseCategory :=
  List.filter (fun c => negb (bool_decide (is_Some (base build !! c)))) required.

Definition discount (build : BuildState) (pricing : Pricing) : Q :=
  match discountType pricing with
  | percent =>
      Qmin (subtotal build)
           (subtotal build * num_or0 (discountValue pricing) / 100)
  | fixed => Qmin (subtotal build) (num_or0 (discountValue pricing))
  | none => 0
  end.

Definition netBeforeVAT (build : BuildState) (pricing : Pricing) : Q :=
  Qmax 0 (subtotal build - discount build pricing).

Definition vat (build : BuildState) (pricing : Pricing) : Q :=
  if vatEnabled pricing
  then netBeforeVAT build pricing * num_or0 (vatPercent pricing) / 100
  else 0.

Definition total (build : BuildState) (pricing : Pricing) : Q :=
  netBeforeVAT build pricing + vat build pricing.

(** [typeof p.cost==="number" ? p.cost : 0] *)
Definition baseCost (build : BuildState) : Q :=
  fold_left (fun s cp => s + match cost (snd cp) with
                             | Some c => c
                             | None => 0
                             end) (baseSelected build) 0.

(** [typeof a.product.cost==="number" ? a.product.cost*a.qty : 0] *)
Definition addonCost (build : BuildState) : Q :=
  fold_left (fun s a => s + match cost (product a) with
                            | Some c => c * qty a
                            | None => 0
                            end) (addons build) 0.

Definition costTotal (build : BuildState) : Q :=
  baseCost build + addonCost build.

Definition profit (build : BuildState) (pricing : Pricing) : Q :=
  netBeforeVAT build pricing - costTotal build.

Definition margin (build : BuildState) (pricing : Pricing) : Q :=
  if Qltb 0 (netBeforeVAT build pricing)
  then (profit build pricing / netBeforeVAT build pricing) * 100
  else 0.

(** ** Updates of the selection

    Each definition is the function passed to [setBuild]; the result of
    [uid()] is the argument [fresh]. *)

(** [{ ...prev, base: { ...prev.base, [cat]: product || undefined } }]; a key
    bound to [undefined] reads like a missing key. *)
Definition selectBase (cat : BaseCategory) (product : option Product)
    (prev : BuildState) : BuildState :=
  {| base := match product with
             | Some p => <[cat := p]> (base prev)
             | None => delete cat (base prev)
             end;
     addons := addons prev |}.

Definition same_product (p : Product) (a : AddonEntry) : bool :=
  String.eqb (id (product a)) (id p).

Definition addAddon (p : Product) (q : Q) (fresh : string)
    (prev : BuildState) : BuildState :=
  match List.find (same_product p) (addons prev) with
  | Some existing =>
      {| base := base prev;
         addons := map (fun a => if same_product p a
                                 then {| entry_id := entry_id a;
                                         product := product a;
                                         qty := qty a + q |}
                                 else a) (addons prev) |}
  | None =>
      {| base := base prev;
         addons := addons prev
                   ++ [ {| entry_id := fresh; product := p; qty := q |} ] |}
  end.

Definition updateAddonQty (i : string) (q : Q) (prev : BuildState)
    : BuildState :=
  {| base := base prev;
     addons := map (fun a => if String.eqb (entry_id a) i
                             then {| entry_id := entry_id a;
                                     product := product a;
                                     qty := q |}
                             else a) (addons prev) |}.

Definition removeAddon (i : string) (prev : BuildState) : BuildState :=
  {| base := base prev;
     addons := List.filter (fun a => negb (String.eqb (entry_id a) i))
                           (addons prev) |}.

Definition resetSpec : BuildState := {| base := ∅; addons := [] |}.

(** The add-as-option button of the global search dialog:
    [{ ...prev, addons: [...prev.addons, { id: uid(), product: p, qty: 1 }] }] *)
Definition searchAddOption (p : Product) (fresh : string)
    (prev : BuildState) : BuildState :=
  {| base := base prev;
     addons := addons prev
               ++ [ {| entry_id := fresh; product := p; qty := 1 |} ] |}.

(** The put-into-category button of the global search dialog:
    [{ ...prev, base: { ...prev.base, [p.category]: p } }] *)
Definition searchPutBase (c : BaseCategory) (p : Product)
    (prev : BuildState) : BuildState :=
  {| base := <[c := p]> (base prev); addons := addons prev |}.

(** ** Sample products (rows of the demo inventory, with fixed ids) *)

Definition ryzen5 : Product :=
  {| id := "cpu1"; name := "AMD Ryzen 5 7600"; category := Base CPU;
     price := 7490; stock := 8; cost := Some 6100;
     attributes := {| a_socket := Some "AM5"; a_tdp := Some 65;
       a_ramType := None; a_formFactor := None; a_pcieSlots := None;
       a_storage := None; a_formFactorSupport := None;
       a_socketSupport := None; a_interface := None; a_wattage := None;
       a_type := None |} |}.

Definition i5_13400F : Product :=
  {| id := "cpu2"; name := "Intel Core i5-13400F"; category := Base CPU;
     price := 6990; stock := 12; cost := Some 5900;
     attributes := {| a_socket := Some "LGA1700"; a_tdp := Some 148;
       a_ramType := None; a_formFactor := None; a_pcieSlots := None;
       a_storage := None; a_formFactorSupport := None;
       a_socketSupport := None; a_interface := None; a_wattage := None;
       a_type := None |} |}.

Definition tufB650 : Product :=
  {| id := "mb1"; name := "ASUS TUF B650-PLUS"; category := Base Motherboard;
     price := 7290; stock := 6; cost := Some 6100;
     attributes := {| a_socket := Some "AM5"; a_tdp := None;
       a_ramType := Some "DDR5"; a_formFactor := Some "ATX";
       a_pcieSlots := Some 2; a_storage := Some ["M.2 NVMe"; "SATA"];
       a_formFactorSupport := None; a_socketSupport := None;
       a_interface := None; a_wattage := None; a_type := None |} |}.

Definition furyDDR5 : Product :=
  {| id := "ram1"; name := "Kingston Fury 16GB (2x8) 6000 DDR5";
     category := Base RAM; price := 2190; stock := 15; cost := Some 1850;
     attributes := {| a_socket := None; a_tdp := None; a_ramType := None;
       a_formFactor := None; a_pcieSlots := None; a_storage := None;
       a_formFactorSupport := None; a_socketSupport := None;
       a_interface := None; a_wattage := None; a_type := Some "DDR5" |} |}.

Definition vengeanceDDR4 : Product :=
  {| id := "ram2"; name := "Corsair Vengeance 32GB (2x16) 3200 DDR4";
     category := Base RAM; price := 2690; stock := 10; cost := Some 2300;
     attributes := {| a_socket := None; a_tdp := None; a_ramType := None;
       a_formFactor := None; a_pcieSlots := None; a_storage := None;
       a_formFactorSupport := None; a_socketSupport := None;
       a_interface := None; a_wattage := None; a_type := Some "DDR4" |} |}.

(** A RAM module whose record has no [type] attribute. *)
Definition untypedRAM : Product :=
  {| id := "ram3"; name := "Generic 8GB"; category := Base RAM;
     price := 900; stock := 2; cost := None; attributes := noAttributes |}.

Definition rm750 : Product :=
  {| id := "psu1"; name := "Corsair RM750"; category := Base PSU;
     price := 3290; stock := 7; cost := Some 2800;
     attributes := {| a_socket := None; a_tdp := None; a_ramType := None;
       a_formFactor := None; a_pcieSlots := None; a_storage := None;
       a_formFactorSupport := None; a_socketSupport := None;
       a_interface := None; a_wattage := Some 750; a_type := None |} |}.

(** A motherboard for DDR4 memory. *)
Definition ddr4Board : Product :=
  {| id := "mb3"; name := "Generic B550"; category := Base Motherboard;
     price := 3990; stock := 4; cost := None;
     attributes := {| a_socket := Some "AM4"; a_tdp := None;
       a_ramType := Some "DDR4"; a_formFactor := Some "ATX";
       a_pcieSlots := Some 1; a_storage := Some ["SATA"];
       a_formFactorSupport := None; a_socketSupport := None;
       a_interface := None; a_wattage := None; a_type := None |} |}.

(** A power supply whose record has no [wattage] attribute. *)
Definition unratedPSU : Product :=
  {| id := "psu3"; name := "Generic PSU"; category := Base PSU;
     price := 500; stock := 1; cost := None; attributes := noAttributes |}.

Definition aoc24G2 : Product :=
  {| id := "mon1"; name := "AOC 24G2 24in 144Hz IPS";
     category := Addon Monitor; price := 4490; stock := 10;
     cost := Some 3800; attributes := noAttributes |}.

(** ** Definitions used by the statements, and sample selections *)

Definition of_rule (r : Rule) (n : Note) : bool :=
  bool_decide (rule_of (msg n) = r).

(** The notes of a report that belong to rule [r]. *)
Definition notes_of_rule (r : Rule) (rep : CompatibilityReport) : list Note :=
  List.filter (of_rule r) (notes rep).

(** The rule of a note decides which [if] of the checker pushed it. *)
Definition segment (r : Rule) (parts : gmap BaseCategory Product) : list Note :=
  match r with
  | SocketRule => socketNotes parts
  | RamRule => ramNotes parts
  | PcieRule => pcieNotes parts
  | CaseRule => caseNotes parts
  | CoolerRule => coolerNotes parts
  | StorageRule => storageNotes parts
  | PsuRule => psuNotes parts
  end.

(** The error-level notes of the socket rule in a report. *)
Definition socket_errors (rep : CompatibilityReport) : list Note :=
  List.filter (is_level error) (notes_of_rule SocketRule rep).

Definition am5_build : gmap BaseCategory Product :=
  <[CPU := ryzen5]> (<[Motherboard := tufB650]> ∅).

Definition mixed_build : gmap BaseCategory Product :=
  <[CPU := i5_13400F]> (<[Motherboard := tufB650]> ∅).

(** The parts a rule needs before it pushes a note, as the guards of
    [checkCompatibility] have them. *)
Definition rule_parts (r : Rule) : list BaseCategory :=
  match r with
  | SocketRule => [CPU; Motherboard]
  | RamRule => [RAM; Motherboard]
  | PcieRule => [GPU; Motherboard]
  | CaseRule => [Case; Motherboard]
  | CoolerRule => [Cooler; CPU]
  | StorageRule => [Storage; Motherboard]
  | PsuRule => [PSU]
  end.

Definition psu_only : gmap BaseCategory Product := <[PSU := rm750]> ∅.

Definition only_ramType (s : string) : AttrFilters := set_ramType (Some s) noFilters.

Definition only_minPSUWatt (w : Q) : AttrFilters :=
  set_minPSUWatt (Some w) noFilters.

Definition missing {A} (x : option A) : bool :=
  match x with
  | Some _ => false
  | None => true
  end.

(** A candidate of category [cat] lacks an attribute that a constraint of
    [f] reads for that category: a string constraint counts when it is set
    to a non-empty string, [minPSUWatt] when it is set to a positive
    number.  The pairs of constraint and category are those tested by the
    filter callback. *)
Definition lacks_relevant (cat : BaseCategory) (f : AttrFilters)
    (p : Product) : bool :=
  let a := attributes p in
  (truthy_str (f_socket f)
     && (bool_decide (cat = CPU) || bool_decide (cat = Motherboard))
     && missing (a_socket a))
  || (truthy_str (f_ramType f) && bool_decide (cat = Motherboard)
      && missing (a_ramType a))
  || (truthy_str (f_formFactor f) && bool_decide (cat = Motherboard)
      && missing (a_formFactor a))
  || (truthy_str (f_formFactor f) && bool_decide (cat = Case)
      && missing (a_formFactorSupport a))
  || (truthy_str (f_storageInterface f) && bool_decide (cat = Storage)
      && missing (a_interface a))
  || (truthy_str (f_storageInterface f) && bool_decide (cat = Motherboard)
      && missing (a_storage a))
  || (truthy_str (f_coolerSocket f) && bool_decide (cat = Cooler)
      && missing (a_socketSupport a))
  || match f_minPSUWatt f with
     | Some w => Qltb 0 w && bool_decide (cat = PSU) && missing (a_wattage a)
     | None => false
     end.

(** No field of [f] holds a constraint: every string field is missing or
    empty and [minPSUWatt] is missing. *)
Definition unconstrained (f : AttrFilters) : bool :=
  negb (truthy_str (f_socket f)) && negb (truthy_str (f_ramType f))
  && negb (truthy_str (f_formFactor f))
  && negb (truthy_str (f_storageInterface f))
  && missing (f_minPSUWatt f) && negb (truthy_str (f_coolerSocket f)).

(** A candidate of category [cat] meets every constraint that [f] holds for
    that category.  A field that is missing, or an empty string, asks for
    nothing; [minPSUWatt] asks for that many watts, a missing [wattage]
    counting as 0.  The pairs of constraint and category are those tested by
    the filter callback. *)
Definition meets_constraints (cat : BaseCategory) (f : AttrFilters)
    (p : Product) : Prop :=
  let a := attributes p in
  (forall s, f_socket f = Some s -> s <> "" ->
     cat = CPU \/ cat = Motherboard -> a_socket a = Some s)
  /\ (forall s, f_ramType f = Some s -> s <> "" ->
       cat = Motherboard -> a_ramType a = Some s)
  /\ (forall s, f_formFactor f = Some s -> s <> "" ->
       cat = Motherboard -> a_formFactor a = Some s)
  /\ (forall s, f_formFactor f = Some s -> s <> "" ->
       cat = Case -> exists l, a_formFactorSupport a = Some l /\ s ∈ l)
  /\ (forall s, f_storageInterface f = Some s -> s <> "" ->
       cat = Storage -> a_interface a = Some s)
  /\ (forall s, f_storageInterface f = Some s -> s <> "" ->
       cat = Motherboard -> exists l, a_storage a = Some l /\ s ∈ l)
  /\ (forall w, f_minPSUWatt f = Some w ->
       cat = PSU -> w <= or0 (a_wattage a))
  /\ (forall s, f_coolerSocket f = Some s -> s <> "" ->
       cat = Cooler -> exists l, a_socketSupport a = Some l /\ s ∈ l).

Definition cpu_only : gmap BaseCategory Product := <[CPU := ryzen5]> ∅.

Definition previous_filters : AttrFilters :=
  {| f_socket := Some "LGA1700"; f_ramType := Some "DDR4";
     f_formFactor := None; f_storageInterface := Some "SATA";
     f_minPSUWatt := Some 650; f_coolerSocket := None |}.

(** Sum of a list of numbers, first element first. *)
Definition sumQ (l : list Q) : Q := fold_right Qplus 0 l.

(** The selected base parts, in the order of [BASE_CATEGORIES]. *)
Definition chosen (build : BuildState) : list Product :=
  map snd (baseSelected build).

(** The data-model invariant of a selection: prices and quantities are not
    negative. *)
Definition nonneg_amounts (build : BuildState) : Prop :=
  Forall (fun p => 0 <= price p) (chosen build)
  /\ Forall (fun a => 0 <= price (product a) /\ 0 <= qty a) (addons build).

(** The parts held by the base selection. *)
Definition base_parts (build : BuildState) : list Product :=
  map snd (map_to_list (base build)).

Definition hdmiCable : Product :=
  {| id := "acc1"; name := "HDMI cable 2m"; category := Addon Monitor;
     price := 260; stock := 40; cost := None; attributes := noAttributes |}.

(** A selection with subtotal 7290 + 2190 + 2 * 260 = 10000. *)
Definition quote_build : BuildState :=
  {| base := <[Motherboard := tufB650]> (<[RAM := furyDDR5]> ∅);
     addons := [ {| entry_id := "e1"; product := hdmiCable; qty := 2 |} ] |}.

Definition ten_percent_vat7 : Pricing :=
  {| discountType := percent; discountValue := 10; vatEnabled := true;
     vatPercent := 7; showCost := true |}.

Definition no_discount : Pricing :=
  {| discountType := none; discountValue := 0; vatEnabled := false;
     vatPercent := 7; showCost := true |}.

(** The cost of a product, 0 when the record has none. *)
Definition cost_or0 (p : Product) : Q :=
  match cost p with
  | Some c => c
  | None => 0
  end.

(** The cost total in the words of claim C8: the sum of the cost values of
    the selected base parts and of the add-ons, a missing cost counting 0. *)
Definition costTotal_stated (build : BuildState) : Q :=
  sumQ (map cost_or0 (base_parts build))
  + sumQ (map (fun a => cost_or0 (product a)) (addons build)).

Definition three_monitors : BuildState :=
  {| base := ∅;
     addons := [ {| entry_id := "e1"; product := aoc24G2; qty := 3 |} ] |}.

Definition product_ids (l : list AddonEntry) : list string :=
  map (fun a => id (product a)) l.

(** At most one add-on entry per product id. *)
Definition one_entry_per_product (build : BuildState) : Prop :=
  NoDup (product_ids (addons build)).

Definition two_addons : BuildState :=
  {| base := cpu_only;
     addons := [ {| entry_id := "e1"; product := aoc24G2; qty := 1 |};
                 {| entry_id := "e2"; product := hdmiCable; qty := 2 |} ] |}.

(** ** Further functions of the application *)

(** *** Candidate lists of the pickers *)

(** [map[c].push(p)] on a record that has every category as a key. *)
Definition push_cat {C} `{EqDecision C} (c : C) (p : Product)
    (m : C -> list Product) : C -> list Product :=
  fun c' => if decide (c' = c) then m c' ++ [p] else m c'.

(** [byCatRaw] of [BasePicker]: the base products in stock, by category. *)
Definition byCatRaw (inventory : list Product) : BaseCategory -> list Product :=
  fold_left (fun m p =>
               match category p with
               | Base c => if Qltb 0 (stock p) then push_cat c p m else m
               | Addon _ => m
               end) inventory (fun _ => []).

(** [byCat] of [BasePicker]. *)
Definition byCat (inventory : list Product) (filters : AttrFilters)
    (c : BaseCategory) : list Product :=
  applyAttrFilters c (byCatRaw inventory c) filters.

#[global] Instance AddonCategory_eq_dec : EqDecision AddonCategory.
Proof. solve_decision. Defined.

(** [byCat] of [AddonsPicker]: the add-on products in stock, by category. *)
Definition addonsByCat (inventory : list Product)
    : AddonCategory -> list Product :=
  fold_left (fun m p =>
               match category p with
               | Addon c => if Qltb 0 (stock p) then push_cat c p m else m
               | Base _ => m
               end) inventory (fun _ => []).

(** [items.find(p => p.id === id)] *)
Definition find_id (ident : string) (items : list Product) : option Product :=
  List.find (fun p => String.eqb (id p) ident) items.

(** The [onValueChange] of a category drop-down of [BasePicker]: the entry
    ["__none__"] deselects, any other value selects the candidate with that
    id, or deselects when the candidate list has none. *)
Definition BasePicker_onValueChange (cat : BaseCategory) (ident : string)
    (inventory : list Product) (filters : AttrFilters)
    (prev : BuildState) : BuildState :=
  if String.eqb ident "__none__" then selectBase cat None prev
  else selectBase cat (find_id ident (byCat inventory filters cat)) prev.

(** [add] of [AddonsPicker]: an unknown product and a quantity below 1 are
    refused with an error toast and leave the selection as it is. *)
Definition AddonsPicker_add (cat : AddonCategory) (ident : string) (q : Q)
    (fresh : string) (inventory : list Product)
    (prev : BuildState) : BuildState :=
  match find_id ident (addonsByCat inventory cat) with
  | None => prev
  | Some product => if Qltb q 1 then prev else addAddon product q fresh prev
  end.

(** The [onChange] of a quantity field of the add-on list:
    [updateQty(a.id, Math.max(1, Number(e.target.value||1)))]; [None] is
    the empty field. *)
Definition AddonsPicker_onQtyChange (i : string) (value : option Q)
    (prev : BuildState) : BuildState :=
  updateAddonQty i (Qmax 1 (match value with
                            | Some v => v
                            | None => 1
                            end)) prev.

(** The updates of the selection that the builder screen can trigger: the
    drop-downs and skip buttons of the base picker, the add button, quantity
    fields and remove buttons of the add-on picker, the button of a search
    result (put into its category for a base product, add as option
    otherwise) and the reset button. *)
Inductive Action :=
  | ActSelect (cat : BaseCategory) (ident : string) (filters : AttrFilters)
  | ActSkip (cat : BaseCategory)
  | ActAdd (cat : AddonCategory) (ident : string) (q : Q) (fresh : string)
  | ActQty (i : string) (value : option Q)
  | ActRemove (i : string)
  | ActSearch (p : Product) (fresh : string)
  | ActReset.

Definition perform (inventory : list Product) (a : Action)
    (prev : BuildState) : BuildState :=
  match a with
  | ActSelect cat ident filters =>
      BasePicker_onValueChange cat ident inventory filters prev
  | ActSkip cat => selectBase cat None prev
  | ActAdd cat ident q fresh => AddonsPicker_add cat ident q fresh inventory prev
  | ActQty i value => AddonsPicker_onQtyChange i value prev
  | ActRemove i => removeAddon i prev
  | ActSearch p fresh =>
      match category p with
      | Base c => searchPutBase c p prev
      | Addon _ => searchAddOption p fresh prev
      end
  | ActReset => resetSpec
  end.

(** The selection after a run of updates, starting from the empty one. *)
Definition run (inventory : list Product) (acts : list Action) : BuildState :=
  fold_left (fun b a => perform inventory a b) acts resetSpec.

(** *** Inventory *)

(** [arr.findIndex(f)], with [None] for -1. *)
Fixpoint findIndex {A} (f : A -> bool) (l : list A) : option nat :=
  match l with
  | [] => None
  | x :: l' => if f x then Some 0%nat else option_map S (findIndex f l')
  end.

(** The update of [saveProduct]: replace the first product with the same id,
    or put the new product in front. *)
Definition saveProduct (p : Product) (prev : list Product) : list Product :=
  match findIndex (fun x => String.eqb (id x) (id p)) prev with
  | Some idx => <[idx := p]> prev
  | None => p :: prev
  end.

Definition deleteProduct (ident : string) (prev : list Product)
    : list Product :=
  List.filter (fun p => negb (String.eqb (id p) ident)) prev.

(** The update of [handleImport]: [[...items, ...prev]]. *)
Definition handleImport (items prev : list Product) : list Product :=
  items ++ prev.

(** *** Builder settings and editor toggles *)

(** The click on a required-category button:
    [active ? required.filter(x=>x!==c) : [...required, c]]. *)
Definition toggleRequired (c : BaseCategory) (required : list BaseCategory)
    : list BaseCategory :=
  if bool_decide (c ∈ required)
  then List.filter (fun x => negb (bool_decide (x = c))) required
  else required ++ [c].

(** [arr.splice(arr.indexOf(value), 1)] when [value] occurs in [arr]. *)
Fixpoint splice_first (value : string) (arr : list string) : list string :=
  match arr with
  | [] => []
  | x :: arr' =>
      if String.eqb x value then arr' else x :: splice_first value arr'
  end.

(** [toggleInArray] of [CategoryAttrFields], on the current value of the key;
    the result is the array stored back under the key. *)
Definition toggleInArray (current : option (list string)) (value : string)
    : list string :=
  let arr := default [] current in
  if bool_decide (value ∈ arr) then splice_first value arr
  else arr ++ [value].

(** *** Sorting *)

Inductive SortMode := defaultMode | priceAsc | priceDesc | nameAsc | stockDesc.

(** [Array.prototype.sort] with a comparator: a stable sort, computed here by
    insertion.  [x] goes behind [y] when [cmp x y > 0]. *)
Fixpoint insert_by {A} (cmp : A -> A -> Q) (x : A) (l : list A) : list A :=
  match l with
  | [] => [x]
  | y :: l' => if Qltb 0 (cmp x y) then y :: insert_by cmp x l'
               else x :: y :: l'
  end.

Definition js_sort {A} (cmp : A -> A -> Q) (l : list A) : list A :=
  fold_right (insert_by cmp) [] l.

(** [sortProducts]; [localeCompare] is the comparison of names of the
    browser's locale. *)
Definition sortProducts (localeCompare : string -> string -> Q)
    (arr : list Product) (mode : SortMode) : list Product :=
  let a := arr in
  match mode with
  | priceAsc => js_sort (fun x y => price x - price y) a
  | priceDesc => js_sort (fun x y => price y - price x) a
  | nameAsc => js_sort (fun x y => localeCompare (name x) (name y)) a
  | stockDesc => js_sort (fun x y => stock y - stock x) a
  | defaultMode => a
  end.

(** ** Definitions used by the further statements *)

(** Every add-on quantity is at least 1. *)
Definition quantities_positive (build : BuildState) : Prop :=
  Forall (fun a => 1 <= qty a) (addons build).

(** The product ids of an inventory. *)
Definition inventory_ids (l : list Product) : list string := map id l.

(** Every element of [l] is related by [R] to all the elements behind it. *)
Fixpoint ordered_by {A} (R : A -> A -> Prop) (l : list A) : Prop :=
  match l with
  | [] => True
  | x :: l' => Forall (R x) l' /\ ordered_by R l'
  end.

(** Every product comes before the products with a larger or equal key. *)
Definition ascending_by (key : Product -> Q) (l : list Product) : Prop :=
  ordered_by (fun x y => key x <= key y) l.

(** Every product comes before the products with a smaller or equal key. *)
Definition descending_by (key : Product -> Q) (l : list Product) : Prop :=
  ordered_by (fun x y => key y <= key x) l.

(** The products of [l] whose key equals [v], in the order of [l]. *)
Definition with_key (key : Product -> Q) (v : Q) (l : list Product)
    : list Product :=
  List.filter (fun p => Qeq_bool (key p) v) l.

Definition b760m : Product :=
  {| id := "mb2"; name := "MSI PRO B760M-A"; category := Base Motherboard;
     price := 4990; stock := 9; cost := Some 4100;
     attributes := {| a_socket := Some "LGA1700"; a_tdp := None;
       a_ramType := Some "DDR5"; a_formFactor := Some "mATX";
       a_pcieSlots := Some 2; a_storage := Some ["M.2 NVMe"; "SATA"];
       a_formFactorSupport := None; a_socketSupport := None;
       a_interface := None; a_wattage := None; a_type := None |} |}.

Definition rtx4070 : Product :=
  {| id := "gpu1"; name := "NVIDIA RTX 4070 SUPER"; category := Base GPU;
     price := 19990; stock := 4; cost := Some 17500;
     attributes := {| a_socket := None; a_tdp := Some 220;
       a_ramType := None; a_formFactor := None; a_pcieSlots := None;
       a_storage := None; a_formFactorSupport := None;
       a_socketSupport := None; a_interface := Some "PCIe";
       a_wattage := None; a_type := None |} |}.

Definition sn770 : Product :=
  {| id := "sto1"; name := "WD Black SN770 1TB NVMe"; category := Base Storage;
     price := 2990; stock := 18; cost := Some 2500;
     attributes := {| a_socket := None; a_tdp := None; a_ramType := None;
       a_formFactor := None; a_pcieSlots := None; a_storage := None;
       a_formFactorSupport := None; a_socketSupport := None;
       a_interface := Some "M.2 NVMe"; a_wattage := None; a_type := None |} |}.

Definition neoEco550 : Product :=
  {| id := "psu2"; name := "Antec NeoECO 550"; category := Base PSU;
     price := 1890; stock := 11; cost := Some 1600;
     attributes := {| a_socket := None; a_tdp := None; a_ramType := None;
       a_formFactor := None; a_pcieSlots := None; a_storage := None;
       a_formFactorSupport := None; a_socketSupport := None;
       a_interface := None; a_wattage := Some 550; a_type := None |} |}.

Definition h5Flow : Product :=
  {| id := "case1"; name := "NZXT H5 Flow"; category := Base Case;
     price := 3590; stock := 3; cost := Some 3000;
     attributes := {| a_socket := None; a_tdp := None; a_ramType := None;
       a_formFactor := None; a_pcieSlots := None; a_storage := None;
       a_formFactorSupport := Some ["ATX"; "mATX"; "ITX"];
       a_socketSupport := None; a_interface := None; a_wattage := None;
       a_type := None |} |}.

Definition nr200 : Product :=
  {| id := "case2"; name := "Cooler Master NR200"; category := Base Case;
     price := 3290; stock := 5; cost := Some 2800;
     attributes := {| a_socket := None; a_tdp := None; a_ramType := None;
       a_formFactor := None; a_pcieSlots := None; a_storage := None;
       a_formFactorSupport := Some ["ITX"];
       a_socketSupport := None; a_interface := None; a_wattage := None;
       a_type := None |} |}.

Definition ak400 : Product :=
  {| id := "cool1"; name := "DeepCool AK400"; category := Base Cooler;
     price := 1190; stock := 9; cost := Some 990;
     attributes := {| a_socket := None; a_tdp := None; a_ramType := None;
       a_formFactor := None; a_pcieSlots := None; a_storage := None;
       a_formFactorSupport := None;
       a_socketSupport := Some ["AM5"; "LGA1700"];
       a_interface := None; a_wattage := None; a_type := None |} |}.

(** A product that is out of stock. *)
Definition soldOutCPU : Product :=
  {| id := "cpu9"; name := "AMD Ryzen 7 7700"; category := Base CPU;
     price := 11900; stock := 0; cost := None;
     attributes := attributes ryzen5 |}.

Definition demo_inventory : list Product :=
  [ ryzen5; i5_13400F; soldOutCPU; tufB650; b760m; rtx4070; furyDDR5;
    vengeanceDDR4; sn770; rm750; neoEco550; h5Flow; nr200; ak400;
    aoc24G2; hdmiCable ].

Definition am5_selection : BuildState := {| base := cpu_only; addons := [] |}.

Definition mixed_selection : BuildState :=
  {| base := mixed_build; addons := [] |}.

(** A selection with a motherboard only. *)
Definition board_selection : BuildState :=
  {| base := <[Motherboard := tufB650]> ∅; addons := [] |}.

(** A selection with CPU, graphics card and a first power supply. *)
Definition gaming_selection : BuildState :=
  {| base := <[CPU := i5_13400F]> (<[GPU := rtx4070]> (<[PSU := neoEco550]> ∅));
     addons := [] |}.

(** [over] laid over [under]: a field set in [over] wins. *)
Definition override (over under : AttrFilters) : AttrFilters :=
  {| f_socket := match f_socket over with
                 | Some v => Some v
                 | None => f_socket under
                 end;
     f_ramType := match f_ramType over with
                  | Some v => Some v
                  | None => f_ramType under
                  end;
     f_formFactor := match f_formFactor over with
                     | Some v => Some v
                     | None => f_formFactor under
                     end;
     f_storageInterface := match f_storageInterface over with
                           | Some v => Some v
                           | None => f_storageInterface under
                           end;
     f_minPSUWatt := match f_minPSUWatt over with
                     | Some v => Some v
                     | None => f_minPSUWatt under
                     end;
     f_coolerSocket := match f_coolerSocket over with
                       | Some v => Some v
                       | None => f_coolerSocket under
                       end |}.

Definition fixed_discount (v : Q) : Pricing :=
  {| discountType := fixed; discountValue := v; vatEnabled := true;
     vatPercent := 7; showCost := true |}.

(** A selection with subtotal 500. *)
Definition small_build : BuildState :=
  {| base := <[PSU := unratedPSU]> ∅; addons := [] |}.

(** The amount of an add-on line. *)
Definition line_amount (a : AddonEntry) : Q := price (product a) * qty a.

(** The add-on entries with entry id [i]. *)
Definition entries_with_id (i : string) (l : list AddonEntry) : list AddonEntry :=
  List.filter (fun a => String.eqb (entry_id a) i) l.

(** The monitor as the inventory has it after a price change. *)
Definition aoc24G2_repriced : Product :=
  {| id := "mon1"; name := "AOC 24G2 24in 144Hz IPS";
     category := Addon Monitor; price := 3990; stock := 10;
     cost := Some 3800; attributes := noAttributes |}.

#[global] Instance Category_eq_dec : EqDecision Category.
Proof. solve_decision. Defined.

(** A product of base category [c] that is in stock. *)
Definition stocked_in (c : BaseCategory) (p : Product) : bool :=
  bool_decide (category p = Base c) && Qltb 0 (stock p).

(** A product of add-on category [c] that is in stock. *)
Definition stocked_addon (c : AddonCategory) (p : Product) : bool :=
  bool_decide (category p = Addon c) && Qltb 0 (stock p).

(** An update other than the add-as-option button of the search dialog. *)
Definition not_search_option (a : Action) : Prop :=
  match a with
  | ActSearch p _ =>
      match category p with
      | Base _ => True
      | Addon _ => False
      end
  | _ => True
  end.

(** A selection with the Intel CPU only. *)
Definition i5_selection : BuildState :=
  {| base := <[CPU := i5_13400F]> ∅; addons := [] |}.

(** ** Facts about the compatibility checker *)

Lemma filter_all_of_rule (r : Rule) (l : list Note) :
  Forall (fun n => rule_of (msg n) = r) l -> List.filter (of_rule r) l = l.
Proof.
  induction 1 as [|n l Hn _ IH]; simpl; [reflexivity|].
  unfold of_rule at 1. rewrite bool_decide_eq_true_2 by exact Hn.
  now rewrite IH.
Qed.

Lemma filter_none_of_rule (r r' : Rule) (l : list Note) :
  r <> r' ->
  Forall (fun n => rule_of (msg n) = r') l -> List.filter (of_rule r) l = [].
Proof.
  intros Hne. induction 1 as [|n l Hn _ IH]; simpl; [reflexivity|].
  unfold of_rule at 1. rewrite bool_decide_eq_false_2 by congruence.
  exact IH.
Qed.

Section CheckerFacts.
Variable parts : gmap BaseCategory Product.

(** Runs through the guards of one rule and checks the tag of the note it
    pushes, if any. *)
Ltac note_tag :=
  repeat match goal with
    | |- Forall _ (match ?x with _ => _ end) => destruct x
    | |- Forall _ (if ?b then _ else _) => destruct b
    | |- Forall _ [] => constructor
    | |- Forall _ (_ :: _) => constructor
    | |- rule_of (msg (if ?b then _ else _)) = _ => destruct b
    end;
  try reflexivity.

Lemma socketNotes_rule :
  Forall (fun n => rule_of (msg n) = SocketRule) (socketNotes parts).
Proof. unfold socketNotes. note_tag. Qed.

Lemma ramNotes_rule :
  Forall (fun n => rule_of (msg n) = RamRule) (ramNotes parts).
Proof. unfold ramNotes. note_tag. Qed.

Lemma pcieNotes_rule :
  Forall (fun n => rule_of (msg n) = PcieRule) (pcieNotes parts).
Proof. unfold pcieNotes. note_tag. Qed.

Lemma caseNotes_rule :
  Forall (fun n => rule_of (msg n) = CaseRule) (caseNotes parts).
Proof. unfold caseNotes. cbv zeta. note_tag. Qed.

Lemma coolerNotes_rule :
  Forall (fun n => rule_of (msg n) = CoolerRule) (coolerNotes parts).
Proof. unfold coolerNotes. cbv zeta. note_tag. Qed.

Lemma storageNotes_rule :
  Forall (fun n => rule_of (msg n) = StorageRule) (storageNotes parts).
Proof. unfold storageNotes. cbv zeta. note_tag. Qed.

Lemma psuNotes_rule :
  Forall (fun n => rule_of (msg n) = PsuRule) (psuNotes parts).
Proof. unfold psuNotes. cbv zeta. note_tag. Qed.

(** Filtering the report by rule gives back what the [if] of that rule
    pushed: the notes of different rules never mix. *)
Lemma notes_of_rule_segment (r : Rule) :
  notes_of_rule r (checkCompatibility parts) = segment r parts.
Proof.
  unfold notes_of_rule, checkCompatibility; cbn [notes].
  rewrite !List.filter_app.
  pose proof socketNotes_rule. pose proof ramNotes_rule.
  pose proof pcieNotes_rule. pose proof caseNotes_rule.
  pose proof coolerNotes_rule. pose proof storageNotes_rule.
  pose proof psuNotes_rule.
  destruct r; cbn [segment];
    repeat match goal with
      | H : Forall (fun n => rule_of (msg n) = ?r') ?l
        |- context [List.filter (of_rule ?r) ?l] =>
          first [ rewrite (filter_all_of_rule r l H)
                | rewrite (filter_none_of_rule r r' l ltac:(discriminate) H) ]
      end;
    now rewrite ?app_nil_r.
Qed.

Lemma segment_needs_parts (r : Rule) (n : Note) :
  In n (segment r parts) ->
  Forall (fun c => is_Some (parts !! c)) (rule_parts r).
Proof.
  destruct r; cbn [segment rule_parts];
    unfold socketNotes, ramNotes, pcieNotes, caseNotes, coolerNotes,
           storageNotes, psuNotes;
    repeat match goal with
      | |- context [match ?m !! ?c with _ => _ end] =>
          destruct (m !! c) eqn:?
      end;
    cbn; try tauto; intros _; repeat constructor; eauto.
Qed.

Lemma note_in_segment (n : Note) :
  In n (notes (checkCompatibility parts)) ->
  In n (segment (rule_of (msg n)) parts).
Proof.
  intros Hn. rewrite <- notes_of_rule_segment. unfold notes_of_rule.
  apply List.filter_In. split; [exact Hn|].
  unfold of_rule. now apply bool_decide_eq_true_2.
Qed.

End CheckerFacts.

(** Claim C2.  When both a CPU and a motherboard are selected, the report has
    no error-level note of the socket rule if their [socket] attributes are
    equal, and exactly one if they differ; the text of that note carries the
    CPU socket and the motherboard socket. *)
Theorem socket_rule_notes (parts : gmap BaseCategory Product)
    (cpu mb : Product) :
  parts !! CPU = Some cpu ->
  parts !! Motherboard = Some mb ->
  (a_socket (attributes cpu) = a_socket (attributes mb) ->
     socket_errors (checkCompatibility parts) = [])
  /\ (a_socket (attributes cpu) <> a_socket (attributes mb) ->
     socket_errors (checkCompatibility parts)
     = [ {| level := error;
            msg := MsgSocketMismatch (a_socket (attributes cpu))
                                     (a_socket (attributes mb)) |} ]).
Proof.
  intros Hcpu Hmb. unfold socket_errors.
  rewrite notes_of_rule_segment. cbn [segment]. unfold socketNotes.
  rewrite Hcpu, Hmb. unfold strict_eq. split; intros Hs.
  - now rewrite bool_decide_eq_true_2 by exact Hs.
  - now rewrite bool_decide_eq_false_2 by exact Hs.
Qed.

Lemma socket_rule_notes_witness :
  socket_errors (checkCompatibility am5_build) = []
  /\ socket_errors (checkCompatibility mixed_build)
     = [ {| level := error;
            msg := MsgSocketMismatch (Some "LGA1700") (Some "AM5") |} ].
Proof.
  split.
  - apply (socket_rule_notes am5_build ryzen5 tufB650);
      [reflexivity | reflexivity | reflexivity].
  - apply (socket_rule_notes mixed_build i5_13400F tufB650);
      [reflexivity | reflexivity | discriminate].
Defined.

(** Claim C4, as stated, fails: with a power supply and neither CPU nor GPU
    selected the report still holds a note of the PSU sufficiency rule. *)
Lemma psu_note_without_cpu_gpu :
  psu_only !! CPU = None /\ psu_only !! GPU = None
  /\ notes (checkCompatibility psu_only)
     = [ {| level := ok; msg := MsgPsuOk 100 |} ]
  /\ notes_of_rule PsuRule (checkCompatibility psu_only) <> [].
Proof. repeat split; try reflexivity. discriminate. Qed.

(** Claim C4, amended.  A note of one of the six pairwise rules is in the
    report only when both parts of its pair are selected, and a note of the
    PSU sufficiency rule only when a PSU is selected; the PSU rule needs no
    CPU and no GPU: whenever a PSU is selected the report holds exactly one
    note of that rule, comparing the PSU wattage (0 when missing) with the
    estimated need. *)
Theorem rule_fires_when_parts_present (parts : gmap BaseCategory Product) :
  (forall n : Note,
     In n (notes (checkCompatibility parts)) ->
     Forall (fun c => is_Some (parts !! c)) (rule_parts (rule_of (msg n))))
  /\ (forall psu : Product,
        parts !! PSU = Some psu ->
        let need := estimateWattage parts in
        let has := or0 (a_wattage (attributes psu)) in
        notes_of_rule PsuRule (checkCompatibility parts)
        = [ if Qltb has need
            then {| level := warn; msg := MsgPsuLow has need |}
            else {| level := ok; msg := MsgPsuOk need |} ]).
Proof.
  split.
  - intros n Hn. eapply segment_needs_parts, note_in_segment, Hn.
  - intros psu Hpsu. rewrite notes_of_rule_segment. cbn [segment].
    unfold psuNotes. now rewrite Hpsu.
Qed.

Lemma rule_fires_when_parts_present_witness :
  Forall (fun c => is_Some (am5_build !! c)) [CPU; Motherboard]
  /\ notes_of_rule PsuRule (checkCompatibility psu_only)
     = [ {| level := ok; msg := MsgPsuOk 100 |} ].
Proof.
  split.
  - apply (proj1 (rule_fires_when_parts_present am5_build)
             {| level := ok; msg := MsgSocketOk |}).
    vm_compute. left. reflexivity.
  - apply (proj2 (rule_fires_when_parts_present psu_only) rm750).
    reflexivity.
Defined.

(** ** Facts about the filter applier *)

Lemma applyAttrFilters_filter cat items f :
  applyAttrFilters cat items f = List.filter (keep cat f) items.
Proof. now destruct items. Qed.

(** Evaluates the comparisons [cat==="..."] once the category is known. *)
Ltac decide_categories :=
  repeat match goal with
    | |- context [bool_decide (@eq BaseCategory ?x ?y)] =>
        let b := eval vm_compute in (bool_decide (x = y)) in
        change (bool_decide (x = y)) with b
    end;
  rewrite ?andb_false_r; cbn [andb orb negb].

(** No branch of the filter callback tests the category RAM. *)
Lemma keep_RAM f p : keep RAM f p = true.
Proof.
  unfold keep. decide_categories. now destruct (f_minPSUWatt f).
Qed.

(** For a power supply only the [minPSUWatt] test applies. *)
Lemma keep_PSU f p :
  keep PSU f p
  = match f_minPSUWatt f with
    | Some w => negb (Qltb (or0 (a_wattage (attributes p))) w)
    | None => true
    end.
Proof.
  unfold keep. decide_categories.
  destruct (f_minPSUWatt f) as [w|]; [|reflexivity].
  now destruct (Qltb _ w).
Qed.

Lemma applyAttrFilters_RAM items f : applyAttrFilters RAM items f = items.
Proof.
  rewrite applyAttrFilters_filter.
  induction items as [|p l IH]; simpl; [reflexivity|].
  now rewrite keep_RAM, IH.
Qed.

(** Claim C3.  The filters derived from the DDR5 motherboard have
    [ramType = "DDR5"], and the applier run on the RAM category with them
    returns every candidate: the DDR4 module and the module without a
    [type] attribute are kept.  On the Motherboard category the same filter
    set does exclude by [ramType]. *)
Theorem ram_candidates_pass_ramType_filter :
  let f := deriveFiltersFromSelection (<[Motherboard := tufB650]> ∅) noFilters in
  f_ramType f = Some "DDR5"
  /\ applyAttrFilters RAM [furyDDR5; vengeanceDDR4; untypedRAM] f
     = [furyDDR5; vengeanceDDR4; untypedRAM]
  /\ applyAttrFilters RAM [furyDDR5; vengeanceDDR4; untypedRAM]
       (only_ramType "DDR5")
     = [furyDDR5; vengeanceDDR4; untypedRAM]
  /\ applyAttrFilters Motherboard [tufB650; ddr4Board] (only_ramType "DDR5")
     = [tufB650].
Proof. repeat split; reflexivity. Qed.

Lemma truthy_str_Some (x : option string) :
  truthy_str x = true -> exists s, x = Some s.
Proof. destruct x; [eauto | discriminate]. Qed.

Lemma strict_ne_missing (x : option string) :
  truthy_str x = true -> strict_ne None x = true.
Proof. intros [s ->]%truthy_str_Some. reflexivity. Qed.

Lemma Qltb_lt (a b : Q) : Qltb a b = true <-> a < b.
Proof.
  unfold Qltb. rewrite negb_true_iff, <- not_true_iff_false, Qle_bool_iff.
  split; [apply Qnot_le_lt | apply Qlt_not_le].
Qed.

Lemma missing_None {A} (x : option A) : missing x = true -> x = None.
Proof. destruct x; [discriminate | reflexivity]. Qed.

Lemma includes_missing (x : option (list string)) (y : option string) :
  missing x = true -> includes (default [] x) y = false.
Proof.
  intros ->%missing_None. destruct y as [s|]; [|reflexivity].
  apply bool_decide_eq_false_2, not_elem_of_nil.
Qed.

(** A kept candidate failed none of the eight tests of the callback. *)
Lemma keep_true_tests cat f p :
  keep cat f p = true ->
  let a := attributes p in
  truthy_str (f_socket f)
    && ((bool_decide (cat = CPU) && strict_ne (a_socket a) (f_socket f))
        || (bool_decide (cat = Motherboard)
            && strict_ne (a_socket a) (f_socket f))) = false
  /\ truthy_str (f_ramType f) && bool_decide (cat = Motherboard)
     && strict_ne (a_ramType a) (f_ramType f) = false
  /\ truthy_str (f_formFactor f) && bool_decide (cat = Motherboard)
     && strict_ne (a_formFactor a) (f_formFactor f) = false
  /\ truthy_str (f_formFactor f) && bool_decide (cat = Case)
     && negb (includes (default [] (a_formFactorSupport a)) (f_formFactor f))
     = false
  /\ truthy_str (f_storageInterface f) && bool_decide (cat = Storage)
     && strict_ne (a_interface a) (f_storageInterface f) = false
  /\ truthy_str (f_storageInterface f) && bool_decide (cat = Motherboard)
     && negb (includes (default [] (a_storage a)) (f_storageInterface f))
     = false
  /\ match f_minPSUWatt f with
     | Some w => bool_decide (cat = PSU) && Qltb (or0 (a_wattage a)) w
     | None => false
     end = false
  /\ truthy_str (f_coolerSocket f) && bool_decide (cat = Cooler)
     && negb (includes (default [] (a_socketSupport a)) (f_coolerSocket f))
     = false.
Proof.
  unfold keep. cbv zeta.
  repeat match goal with
    | |- context [if ?c then false else _] =>
        destruct c eqn:?; [discriminate|]
    end.
  intros _. repeat split; assumption.
Qed.

Lemma lacks_relevant_not_kept cat f p :
  lacks_relevant cat f p = true -> keep cat f p = false.
Proof.
  intros Hl. destruct (keep cat f p) eqn:K; [|reflexivity].
  apply keep_true_tests in K. cbv zeta in K.
  destruct K as (K1 & K2 & K3 & K4 & K5 & K6 & K7 & K8).
  unfold lacks_relevant in Hl. cbv zeta in Hl.
  repeat (apply orb_true_iff in Hl as [Hl|Hl]);
    try (apply andb_true_iff in Hl as [[Ht Hc]%andb_true_iff Hm]).
  - apply missing_None in Hm. rewrite Hm, Ht, strict_ne_missing in K1 by exact Ht.
    rewrite !andb_true_r in K1. cbn [andb] in K1. congruence.
  - apply missing_None in Hm.
    rewrite Hm, Ht, Hc, strict_ne_missing in K2 by exact Ht. discriminate.
  - apply missing_None in Hm.
    rewrite Hm, Ht, Hc, strict_ne_missing in K3 by exact Ht. discriminate.
  - rewrite Ht, Hc, includes_missing in K4 by exact Hm. discriminate.
  - apply missing_None in Hm.
    rewrite Hm, Ht, Hc, strict_ne_missing in K5 by exact Ht. discriminate.
  - rewrite Ht, Hc, includes_missing in K6 by exact Hm. discriminate.
  - rewrite Ht, Hc, includes_missing in K8 by exact Hm. discriminate.
  - destruct (f_minPSUWatt f) as [w|]; [|discriminate].
    apply andb_true_iff in Hl as [[Ht Hc]%andb_true_iff Hm].
    apply missing_None in Hm. rewrite Hm, Hc in K7.
    change (or0 None) with 0 in K7. rewrite Ht in K7. discriminate.
Qed.

Lemma unconstrained_keep cat f p : unconstrained f = true -> keep cat f p = true.
Proof.
  unfold unconstrained, keep. cbv zeta.
  rewrite !andb_true_iff, !negb_true_iff.
  intros [[[[[-> ->] ->] ->] ->%missing_None] ->]. reflexivity.
Qed.

Lemma filter_keep_all {A} (k : A -> bool) (l : list A) :
  (forall x, k x = true) -> List.filter k l = l.
Proof.
  intros Hk. induction l as [|x l IH]; simpl; [reflexivity|].
  now rewrite Hk, IH.
Qed.

(** Claim C7, as stated, fails: with [minPSUWatt = 0] set, the power supply
    without a [wattage] attribute is kept. *)
Lemma unrated_psu_kept_at_zero :
  f_minPSUWatt (only_minPSUWatt 0) = Some 0
  /\ a_wattage (attributes unratedPSU) = None
  /\ applyAttrFilters PSU [rm750; unratedPSU] (only_minPSUWatt 0)
     = [rm750; unratedPSU].
Proof. repeat split; reflexivity. Qed.

Lemma truthy_str_cases (x : option string) :
  truthy_str x = false \/ exists s, x = Some s /\ s <> "" /\ truthy_str x = true.
Proof.
  destruct x as [s|]; [|now left]. cbn.
  destruct (String.eqb_spec s "") as [->|Hne]; [now left|].
  right. exists s. now repeat split.
Qed.

(** A test [f.x && cat==="C" && a.y !== f.x] does not fire exactly when the
    constraint asks for nothing or the attribute is the asked value. *)
Lemma equality_test (cat c : BaseCategory) (fx ay : option string) :
  truthy_str fx && bool_decide (cat = c) && strict_ne ay fx = false
  <-> (forall s, fx = Some s -> s <> "" -> cat = c -> ay = Some s).
Proof.
  destruct (truthy_str_cases fx) as [Hf|(s & -> & Hne & Ht)].
  - rewrite Hf. cbn [andb]. split; [|reflexivity].
    intros _ s -> Hne. cbn in Hf.
    apply negb_false_iff, String.eqb_eq in Hf. contradiction.
  - rewrite Ht. cbn [andb]. unfold strict_ne, strict_eq. split.
    + intros H s' [= <-] _ Hc.
      rewrite (bool_decide_eq_true_2 (cat = c)) in H by exact Hc.
      cbn [andb] in H. apply negb_false_iff in H.
      now apply bool_decide_eq_true_1 in H.
    + intros H. destruct (bool_decide (cat = c)) eqn:Hc; [|reflexivity].
      apply bool_decide_eq_true_1 in Hc. cbn [andb].
      apply negb_false_iff, bool_decide_eq_true_2. now apply H.
Qed.

(** A test [f.x && cat==="C" && !(a.y||[]).includes(f.x)] does not fire
    exactly when the constraint asks for nothing or the array lists the asked
    value. *)
Lemma membership_test (cat c : BaseCategory) (fx : option string)
    (ay : option (list string)) :
  truthy_str fx && bool_decide (cat = c)
    && negb (includes (default [] ay) fx) = false
  <-> (forall s, fx = Some s -> s <> "" -> cat = c ->
         exists l, ay = Some l /\ s ∈ l).
Proof.
  destruct (truthy_str_cases fx) as [Hf|(s & -> & Hne & Ht)].
  - rewrite Hf. cbn [andb]. split; [|reflexivity].
    intros _ s -> Hne. cbn in Hf.
    apply negb_false_iff, String.eqb_eq in Hf. contradiction.
  - rewrite Ht. cbn [andb includes]. split.
    + intros H s' [= <-] _ Hc.
      rewrite (bool_decide_eq_true_2 (cat = c)) in H by exact Hc.
      cbn [andb] in H. apply negb_false_iff, bool_decide_eq_true_1 in H.
      destruct ay as [l|]; [now exists l|].
      cbn in H. now apply elem_of_nil in H.
    + intros H. destruct (bool_decide (cat = c)) eqn:Hc; [|reflexivity].
      apply bool_decide_eq_true_1 in Hc. cbn [andb].
      destruct (H s eq_refl Hne Hc) as (l & -> & Hin).
      apply negb_false_iff, bool_decide_eq_true_2. exact Hin.
Qed.

(** The socket test names two categories. *)
Lemma socket_test (cat : BaseCategory) (fx ay : option string) :
  truthy_str fx
    && ((bool_decide (cat = CPU) && strict_ne ay fx)
        || (bool_decide (cat = Motherboard) && strict_ne ay fx)) = false
  <-> (forall s, fx = Some s -> s <> "" ->
         cat = CPU \/ cat = Motherboard -> ay = Some s).
Proof.
  pose proof (equality_test cat CPU fx ay) as H1.
  pose proof (equality_test cat Motherboard fx ay) as H2.
  rewrite andb_orb_distrib_r, orb_false_iff, !andb_assoc, H1, H2.
  split.
  - intros [Hc Hm] s Hs Hne [Hcat|Hcat]; eauto.
  - intros H. split; intros s Hs Hne Hcat; eauto.
Qed.

Lemma wattage_test (cat : BaseCategory) (fw : option Q) (aw : option Q) :
  match fw with
  | Some w => bool_decide (cat = PSU) && Qltb (or0 aw) w
  | None => false
  end = false
  <-> (forall w, fw = Some w -> cat = PSU -> w <= or0 aw).
Proof.
  destruct fw as [w|]; [|split; [discriminate | reflexivity]]. split.
  - intros H w' [= <-] Hc.
    rewrite (bool_decide_eq_true_2 (cat = PSU)) in H by exact Hc.
    cbn [andb] in H. apply Qnot_lt_le. rewrite <- Qltb_lt. congruence.
  - intros H. destruct (bool_decide (cat = PSU)) eqn:Hc; [|reflexivity].
    apply bool_decide_eq_true_1 in Hc. cbn [andb].
    apply not_true_iff_false. rewrite Qltb_lt.
    apply Qle_not_lt. now apply H.
Qed.

(** The callback keeps a candidate exactly when it meets the constraints
    that are set for the category. *)
Lemma keep_meets_constraints cat f p :
  keep cat f p = true <-> meets_constraints cat f p.
Proof.
  unfold meets_constraints. cbv zeta.
  rewrite <- socket_test, <- !equality_test, <- !membership_test,
          <- wattage_test.
  split.
  - apply keep_true_tests.
  - intros (K1 & K2 & K3 & K4 & K5 & K6 & K7 & K8).
    unfold keep. cbv zeta. now rewrite K1, K2, K3, K4, K5, K6, K7, K8.
Qed.

(** Claim C7, amended.  A candidate that lacks the attribute read by a
    constraint for its category is excluded when that constraint is a
    non-empty string, or when it is [minPSUWatt] with a positive value; a
    missing [wattage] counts as 0 W, so a power supply without it is kept
    when [minPSUWatt] is zero or negative; a filter set whose fields are all
    missing (or empty strings) excludes no candidate.  Field by field, a
    missing (or empty) constraint imposes no restriction: the candidates
    kept meet the constraints that are set for their category, and every
    candidate that meets them is kept, whatever the other fields hold and
    whatever other attributes it lacks.  For the RAM category under a set
    [ramType] the last part speaks of the modules of that type only. *)
Theorem missing_attribute_excluded (cat : BaseCategory)
    (items : list Product) (f : AttrFilters) :
  (forall p : Product,
     lacks_relevant cat f p = true -> ~ In p (applyAttrFilters cat items f))
  /\ (forall (p : Product) (w : Q),
        f_minPSUWatt f = Some w -> w <= 0 ->
        a_wattage (attributes p) = None ->
        In p items -> In p (applyAttrFilters PSU items f))
  /\ (unconstrained f = true -> applyAttrFilters cat items f = items)
  /\ (forall p : Product,
        In p (applyAttrFilters cat items f) ->
        In p items /\ meets_constraints cat f p)
  /\ (forall p : Product,
        In p items -> meets_constraints cat f p ->
        (cat = RAM ->
         forall s, f_ramType f = Some s -> s <> "" ->
                   a_type (attributes p) = Some s) ->
        In p (applyAttrFilters cat items f)).
Proof.
  rewrite !applyAttrFilters_filter. split; [|split; [|split; [|split]]].
  - intros p Hl [_ Hk]%List.filter_In.
    rewrite (lacks_relevant_not_kept _ _ _ Hl) in Hk. discriminate.
  - intros p w Hw Hle Hmiss Hin. apply List.filter_In. split; [exact Hin|].
    rewrite keep_PSU, Hw, Hmiss. change (or0 None) with 0.
    apply negb_true_iff, not_true_iff_false. rewrite Qltb_lt.
    now apply Qle_not_lt.
  - intros Hu. apply filter_keep_all. intros p. now apply unconstrained_keep.
  - intros p [Hin Hk]%List.filter_In. split; [exact Hin|].
    now apply keep_meets_constraints.
  - intros p Hin Hm _. apply List.filter_In. split; [exact Hin|].
    now apply keep_meets_constraints.
Qed.

Lemma missing_attribute_excluded_witness :
  ~ In unratedPSU (applyAttrFilters PSU [rm750; unratedPSU] (only_minPSUWatt 650))
  /\ In unratedPSU (applyAttrFilters PSU [rm750; unratedPSU] (only_minPSUWatt 0))
  /\ applyAttrFilters PSU [rm750; unratedPSU] noFilters = [rm750; unratedPSU]
  /\ In tufB650 (applyAttrFilters Motherboard [tufB650; ddr4Board]
                   (only_ramType "DDR5"))
  /\ meets_constraints PSU (only_minPSUWatt 650) rm750.
Proof.
  split; [|split; [|split; [|split]]].
  - apply (proj1 (missing_attribute_excluded PSU [rm750; unratedPSU]
                    (only_minPSUWatt 650)) unratedPSU).
    reflexivity.
  - apply (proj1 (proj2 (missing_attribute_excluded PSU [rm750; unratedPSU]
                           (only_minPSUWatt 0))) unratedPSU 0).
    + reflexivity.
    + apply Qle_refl.
    + reflexivity.
    + right. left. reflexivity.
  - apply (proj1 (proj2 (proj2 (missing_attribute_excluded PSU
                                  [rm750; unratedPSU] noFilters)))).
    reflexivity.
  - apply (proj2 (proj2 (proj2 (proj2
             (missing_attribute_excluded Motherboard [tufB650; ddr4Board]
                (only_ramType "DDR5"))))) tufB650).
    + left. reflexivity.
    + unfold meets_constraints. cbv zeta.
      repeat split; try (intros s; discriminate).
      intros s [= <-] _ _. reflexivity.
    + discriminate.
  - apply (proj1 (proj2 (proj2 (proj2
             (missing_attribute_excluded PSU [rm750; unratedPSU]
                (only_minPSUWatt 650))))) rm750).
    left. reflexivity.
Defined.

(** ** Facts about Smart Sync *)

(** The fields of the derived filters, one by one. *)
Lemma derive_fields (b : gmap BaseCategory Product) (current : AttrFilters) :
  deriveFiltersFromSelection b current =
  {| f_socket :=
       if truthy_str (attr b CPU a_socket) then attr b CPU a_socket
       else if truthy_str (attr b Motherboard a_socket)
            then attr b Motherboard a_socket
            else f_socket current;
     f_ramType :=
       if truthy_str (attr b Motherboard a_ramType)
       then attr b Motherboard a_ramType
       else f_ramType current;
     f_formFactor :=
       if truthy_str (attr b Motherboard a_formFactor)
       then attr b Motherboard a_formFactor
       else f_formFactor current;
     f_storageInterface :=
       if truthy_str (attr b Storage a_interface)
       then attr b Storage a_interface
       else if bool_decide (is_Some (first_of (attr b Motherboard a_storage)))
            then first_of (attr b Motherboard a_storage)
            else f_storageInterface current;
     f_minPSUWatt :=
       if bool_decide (is_Some (b !! PSU))
       then Some (Qmax (estimateWattage b) 0)
       else f_minPSUWatt current;
     f_coolerSocket :=
       if truthy_str (attr b CPU a_socket) then attr b CPU a_socket
       else f_coolerSocket current |}.
Proof.
  unfold deriveFiltersFromSelection. cbv zeta. destruct current.
  destruct (truthy_str (attr b CPU a_socket)),
           (truthy_str (attr b Motherboard a_socket)),
           (truthy_str (attr b Motherboard a_ramType)),
           (truthy_str (attr b Motherboard a_formFactor)),
           (truthy_str (attr b Storage a_interface)),
           (bool_decide (is_Some (first_of (attr b Motherboard a_storage)))),
           (bool_decide (is_Some (b !! PSU))); reflexivity.
Qed.

Lemma truthy_str_is_Some (x : option string) :
  truthy_str x = true -> is_Some x.
Proof. destruct x; [eauto | discriminate]. Qed.

(** Claim C6.  Deriving the filters a second time from the same selection
    changes nothing. *)
Theorem derive_idempotent (b : gmap BaseCategory Product) (f : AttrFilters) :
  deriveFiltersFromSelection b (deriveFiltersFromSelection b f)
  = deriveFiltersFromSelection b f.
Proof.
  rewrite (derive_fields b (deriveFiltersFromSelection b f)).
  rewrite (derive_fields b f). cbn.
  destruct (truthy_str (attr b CPU a_socket)),
           (truthy_str (attr b Motherboard a_socket)),
           (truthy_str (attr b Motherboard a_ramType)),
           (truthy_str (attr b Motherboard a_formFactor)),
           (truthy_str (attr b Storage a_interface)),
           (bool_decide (is_Some (first_of (attr b Motherboard a_storage)))),
           (bool_decide (is_Some (b !! PSU))); reflexivity.
Qed.

(** Claim C5.  A field for which no assignment of the derivation runs keeps
    the value of the previous filter set; with an empty selection the
    previous filter set is returned as it is; and a field that was set is
    still set afterwards. *)
Theorem derive_merges (b : gmap BaseCategory Product) (current : AttrFilters) :
  let next := deriveFiltersFromSelection b current in
  (truthy_str (attr b CPU a_socket) = false ->
   truthy_str (attr b Motherboard a_socket) = false ->
   f_socket next = f_socket current)
  /\ (truthy_str (attr b Motherboard a_ramType) = false ->
      f_ramType next = f_ramType current)
  /\ (truthy_str (attr b Motherboard a_formFactor) = false ->
      f_formFactor next = f_formFactor current)
  /\ (truthy_str (attr b Storage a_interface) = false ->
      first_of (attr b Motherboard a_storage) = None ->
      f_storageInterface next = f_storageInterface current)
  /\ (truthy_str (attr b CPU a_socket) = false ->
      f_coolerSocket next = f_coolerSocket current)
  /\ (b !! PSU = None -> f_minPSUWatt next = f_minPSUWatt current)
  /\ (b = ∅ -> next = current)
  /\ (is_Some (f_socket current) -> is_Some (f_socket next))
  /\ (is_Some (f_ramType current) -> is_Some (f_ramType next))
  /\ (is_Some (f_formFactor current) -> is_Some (f_formFactor next))
  /\ (is_Some (f_storageInterface current) ->
      is_Some (f_storageInterface next))
  /\ (is_Some (f_minPSUWatt current) -> is_Some (f_minPSUWatt next))
  /\ (is_Some (f_coolerSocket current) -> is_Some (f_coolerSocket next)).
Proof.
  cbv zeta. rewrite derive_fields. cbn.
  repeat split.
  - now intros -> ->.
  - now intros ->.
  - now intros ->.
  - intros -> ->. reflexivity.
  - now intros ->.
  - intros ->. reflexivity.
  - intros ->. unfold attr. rewrite !lookup_empty. cbn.
    now destruct current.
  - destruct (truthy_str (attr b CPU a_socket)) eqn:E1;
      [intros _; now apply truthy_str_is_Some|].
    destruct (truthy_str (attr b Motherboard a_socket)) eqn:E2;
      [intros _; now apply truthy_str_is_Some | trivial].
  - destruct (truthy_str (attr b Motherboard a_ramType)) eqn:E;
      [intros _; now apply truthy_str_is_Some | trivial].
  - destruct (truthy_str (attr b Motherboard a_formFactor)) eqn:E;
      [intros _; now apply truthy_str_is_Some | trivial].
  - destruct (truthy_str (attr b Storage a_interface)) eqn:E;
      [intros _; now apply truthy_str_is_Some|].
    case_bool_decide; trivial.
  - case_bool_decide; eauto.
  - destruct (truthy_str (attr b CPU a_socket)) eqn:E;
      [intros _; now apply truthy_str_is_Some | trivial].
Qed.

Lemma derive_merges_witness :
  f_ramType (deriveFiltersFromSelection cpu_only previous_filters) = Some "DDR4"
  /\ f_storageInterface (deriveFiltersFromSelection cpu_only previous_filters)
     = Some "SATA"
  /\ f_minPSUWatt (deriveFiltersFromSelection cpu_only previous_filters)
     = Some 650
  /\ deriveFiltersFromSelection ∅ previous_filters = previous_filters
  /\ is_Some (f_socket (deriveFiltersFromSelection cpu_only previous_filters)).
Proof.
  destruct (derive_merges cpu_only previous_filters)
    as (_ & Hram & _ & Hsto & _ & Hpsu & _ & Hsock & _).
  destruct (derive_merges ∅ previous_filters)
    as (_ & _ & _ & _ & _ & _ & Hempty & _).
  split; [apply Hram; reflexivity|].
  split; [apply Hsto; reflexivity|].
  split; [apply Hpsu; reflexivity|].
  split; [apply Hempty; reflexivity|].
  apply Hsock. eexists. reflexivity.
Defined.

(** ** Facts about the quote calculator *)

Lemma fold_left_sum {A} (g : A -> Q) (l : list A) (acc : Q) :
  fold_left (fun s x => s + g x) l acc == acc + sumQ (map g l).
Proof.
  revert acc. induction l as [|x l IH]; intros acc; simpl.
  - unfold sumQ; simpl. ring.
  - rewrite IH. unfold sumQ; simpl. ring.
Qed.

Lemma num_or0_eq (x : Q) : num_or0 x == x.
Proof.
  unfold num_or0, or0. destruct (Qeq_bool x 0) eqn:E; [|reflexivity].
  apply Qeq_bool_eq in E. now rewrite E.
Qed.

Lemma baseTotal_sum build : baseTotal build == sumQ (map price (chosen build)).
Proof.
  unfold baseTotal, chosen. rewrite fold_left_sum, map_map. ring.
Qed.

Lemma addonTotal_sum build :
  addonTotal build
  == sumQ (map (fun a => price (product a) * qty a) (addons build)).
Proof. unfold addonTotal. rewrite fold_left_sum. ring. Qed.

Lemma sumQ_nonneg (l : list Q) : Forall (fun x => 0 <= x) l -> 0 <= sumQ l.
Proof.
  induction 1 as [|x l Hx _ IH]; unfold sumQ; simpl; [apply Qle_refl|].
  change (0 <= x + sumQ l).
  rewrite <- (Qplus_0_l 0). now apply Qplus_le_compat.
Qed.

Lemma subtotal_nonneg build : nonneg_amounts build -> 0 <= subtotal build.
Proof.
  intros [Hb Ha]. unfold subtotal. rewrite baseTotal_sum, addonTotal_sum.
  rewrite <- (Qplus_0_l 0). apply Qplus_le_compat; apply sumQ_nonneg.
  - apply Forall_map. exact Hb.
  - apply Forall_map. eapply Forall_impl; [exact Ha|].
    intros a [Hp Hq]. now apply Qmult_le_0_compat.
Qed.

Lemma sumQ_perm (l l' : list Q) : Permutation l l' -> sumQ l == sumQ l'.
Proof.
  induction 1 as [|x l l' _ IH|x y l|l l' l'' _ IH1 _ IH2];
    unfold sumQ in *; simpl.
  - reflexivity.
  - now rewrite IH.
  - ring.
  - now rewrite IH1.
Qed.

Lemma NoDup_baseSelected_in (m : gmap BaseCategory Product)
    (l : list BaseCategory) :
  NoDup l ->
  NoDup (omap (fun c => match m !! c with
                        | Some p => Some (c, p)
                        | None => None
                        end) l).
Proof.
  induction 1 as [|c l Hc _ IH]; simpl; [constructor|].
  destruct (m !! c) as [p|]; [|exact IH].
  constructor; [|exact IH].
  intros (c' & Hc' & Heq)%list_elem_of_omap.
  destruct (m !! c'); [|discriminate]. now simplify_eq.
Qed.

Lemma NoDup_BASE_CATEGORIES : NoDup BASE_CATEGORIES.
Proof.
  unfold BASE_CATEGORIES.
  repeat (constructor;
          [rewrite ?elem_of_cons, elem_of_nil; intuition discriminate|]).
  constructor.
Qed.

Lemma all_BASE_CATEGORIES (c : BaseCategory) : c ∈ BASE_CATEGORIES.
Proof.
  unfold BASE_CATEGORIES. rewrite !elem_of_cons. destruct c; tauto.
Qed.

(** [baseSelected] visits every entry of the base selection exactly once. *)
Lemma baseSelected_perm build :
  Permutation (baseSelected build) (map_to_list (base build)).
Proof.
  apply NoDup_Permutation.
  - apply NoDup_baseSelected_in, NoDup_BASE_CATEGORIES.
  - apply NoDup_map_to_list.
  - intros [c p]. rewrite elem_of_map_to_list. unfold baseSelected.
    rewrite list_elem_of_omap. split.
    + intros (c' & _ & Heq). destruct (base build !! c') eqn:E; [|discriminate].
      now simplify_eq.
    + intros E. exists c. split; [apply all_BASE_CATEGORIES|]. now rewrite E.
Qed.

Lemma chosen_perm build : Permutation (chosen build) (base_parts build).
Proof. unfold chosen, base_parts. apply Permutation_map, baseSelected_perm. Qed.

Lemma subtotal_sum build :
  subtotal build
  == sumQ (map price (base_parts build))
     + sumQ (map (fun a => price (product a) * qty a) (addons build)).
Proof.
  unfold subtotal. rewrite baseTotal_sum, addonTotal_sum.
  now rewrite (sumQ_perm _ _ (Permutation_map price (chosen_perm build))).
Qed.

Lemma nonneg_base_parts build :
  Forall (fun p => 0 <= price p) (base_parts build) ->
  Forall (fun p => 0 <= price p) (chosen build).
Proof.
  intros H. eapply Permutation_Forall; [|exact H].
  symmetry. apply chosen_perm.
Qed.

Lemma discount_le_subtotal build pricing :
  discountType pricing <> none \/ 0 <= subtotal build ->
  discount build pricing <= subtotal build.
Proof.
  unfold discount. destruct (discountType pricing).
  - intros [H|H]; [congruence | exact H].
  - intros _. apply Q.le_min_l.
  - intros _. apply Q.le_min_l.
Qed.

(** Claim C1.  The subtotal is the sum of the prices of the selected base
    parts plus the sum of price times quantity over the add-ons; the
    discount is 0, [min(subtotal, subtotal * discountValue / 100)] or
    [min(subtotal, discountValue)] by discount type, and does not exceed the
    subtotal (for the type [none] because prices and quantities of a
    selection are not negative); the net amount is
    [max(0, subtotal - discount)]; the tax is [net * vatPercent / 100] when
    VAT is enabled and 0 otherwise; the total is net plus tax.  With a
    subtotal of 10000, a 10 percent discount and 7 percent VAT the amounts
    are 1000, 9000, 630 and 9630. *)
Theorem quote_arithmetic (build : BuildState) (pricing : Pricing) :
  subtotal build
  == sumQ (map price (base_parts build))
     + sumQ (map (fun a => price (product a) * qty a) (addons build))
  /\ (discountType pricing = none -> discount build pricing == 0)
  /\ (discountType pricing = percent ->
      discount build pricing
      == Qmin (subtotal build)
              (subtotal build * discountValue pricing / 100))
  /\ (discountType pricing = fixed ->
      discount build pricing
      == Qmin (subtotal build) (discountValue pricing))
  /\ (discountType pricing <> none
      \/ (Forall (fun p => 0 <= price p) (base_parts build)
          /\ Forall (fun a => 0 <= price (product a) /\ 0 <= qty a)
                    (addons build)) ->
      discount build pricing <= subtotal build)
  /\ netBeforeVAT build pricing
     == Qmax 0 (subtotal build - discount build pricing)
  /\ (vatEnabled pricing = true ->
      vat build pricing
      == netBeforeVAT build pricing * vatPercent pricing / 100)
  /\ (vatEnabled pricing = false -> vat build pricing == 0)
  /\ total build pricing == netBeforeVAT build pricing + vat build pricing
  /\ (subtotal build == 10000 ->
      discountType pricing = percent -> discountValue pricing == 10 ->
      vatEnabled pricing = true -> vatPercent pricing == 7 ->
      discount build pricing == 1000
      /\ netBeforeVAT build pricing == 9000
      /\ vat build pricing == 630
      /\ total build pricing == 9630).
Proof.
  split; [apply subtotal_sum|].
  split; [intros Ht; unfold discount; now rewrite Ht|].
  split; [intros Ht; unfold discount; rewrite Ht; now rewrite num_or0_eq|].
  split; [intros Ht; unfold discount; rewrite Ht; now rewrite num_or0_eq|].
  split.
  { intros [H|[Hb Ha]]; apply discount_le_subtotal; [now left|right].
    apply subtotal_nonneg. split; [now apply nonneg_base_parts | exact Ha]. }
  split; [reflexivity|].
  split; [intros Hv; unfold vat; rewrite Hv; now rewrite num_or0_eq|].
  split; [intros Hv; unfold vat; now rewrite Hv|].
  split; [reflexivity|].
  intros Hs Ht Hd Hv Hp.
  assert (Hdisc : discount build pricing == 1000).
  { unfold discount. rewrite Ht, num_or0_eq, Hs, Hd. reflexivity. }
  assert (Hnet : netBeforeVAT build pricing == 9000).
  { unfold netBeforeVAT. rewrite Hdisc, Hs. reflexivity. }
  assert (Hvat : vat build pricing == 630).
  { unfold vat. rewrite Hv, num_or0_eq, Hnet, Hp. reflexivity. }
  repeat split; try assumption.
  unfold total. rewrite Hnet, Hvat. reflexivity.
Qed.

Lemma quote_arithmetic_witness :
  (discount quote_build ten_percent_vat7 == 1000
   /\ netBeforeVAT quote_build ten_percent_vat7 == 9000
   /\ vat quote_build ten_percent_vat7 == 630
   /\ total quote_build ten_percent_vat7 == 9630)
  /\ discount quote_build no_discount == 0
  /\ discount quote_build no_discount <= subtotal quote_build
  /\ vat quote_build no_discount == 0.
Proof.
  destruct (quote_arithmetic quote_build ten_percent_vat7)
    as (_ & _ & _ & _ & _ & _ & _ & _ & _ & Hex).
  destruct (quote_arithmetic quote_build no_discount)
    as (_ & Hnone & _ & _ & Hle & _ & _ & Hvat & _).
  split; [apply Hex; reflexivity|].
  split; [apply Hnone; reflexivity|].
  split; [|apply Hvat; reflexivity].
  apply Hle. right. split.
  - vm_compute. repeat constructor; discriminate.
  - repeat constructor; discriminate.
Defined.

(** Claim C8, as stated, fails: for three monitors costing 3800 each the
    cost total is 11400, not the sum 3800 of the cost values. *)
Lemma costTotal_counts_quantity :
  costTotal three_monitors == 11400
  /\ costTotal_stated three_monitors == 3800
  /\ ~ costTotal three_monitors == costTotal_stated three_monitors.
Proof. repeat split; try reflexivity. discriminate. Qed.

Lemma baseCost_sum build : baseCost build == sumQ (map cost_or0 (base_parts build)).
Proof.
  unfold baseCost. rewrite fold_left_sum, Qplus_0_l.
  rewrite <- (sumQ_perm _ _ (Permutation_map cost_or0 (chosen_perm build))).
  unfold chosen. now rewrite map_map.
Qed.

Lemma addonCost_sum build :
  addonCost build
  == sumQ (map (fun a => cost_or0 (product a) * qty a) (addons build)).
Proof.
  unfold addonCost. rewrite fold_left_sum, Qplus_0_l.
  induction (addons build) as [|a l IH]; [reflexivity|].
  unfold sumQ in *; simpl. rewrite IH. unfold cost_or0.
  destruct (cost (product a)); ring.
Qed.

(** Claim C8, amended.  The cost total is the sum of the costs of the
    selected base parts plus the sum of cost times quantity over the
    add-ons, a missing cost counting 0; the profit is the net amount before
    tax minus the cost total; the margin is [profit / net * 100] when the
    net amount is positive and 0 otherwise.  None of these depends on
    [showCost]. *)
Theorem cost_and_margin (build : BuildState) (pricing : Pricing) :
  costTotal build
  == sumQ (map cost_or0 (base_parts build))
     + sumQ (map (fun a => cost_or0 (product a) * qty a) (addons build))
  /\ profit build pricing == netBeforeVAT build pricing - costTotal build
  /\ (0 < netBeforeVAT build pricing ->
      margin build pricing
      == profit build pricing / netBeforeVAT build pricing * 100)
  /\ (~ 0 < netBeforeVAT build pricing -> margin build pricing == 0).
Proof.
  split; [unfold costTotal; now rewrite baseCost_sum, addonCost_sum|].
  split; [reflexivity|].
  unfold margin. split; intros H.
  - apply Qltb_lt in H. now rewrite H.
  - destruct (Qltb 0 (netBeforeVAT build pricing)) eqn:E; [|reflexivity].
    apply Qltb_lt in E. contradiction.
Qed.

Lemma cost_and_margin_witness :
  margin quote_build ten_percent_vat7
  == profit quote_build ten_percent_vat7
     / netBeforeVAT quote_build ten_percent_vat7 * 100
  /\ margin resetSpec ten_percent_vat7 == 0.
Proof.
  split.
  - apply (cost_and_margin quote_build ten_percent_vat7). reflexivity.
  - apply (cost_and_margin resetSpec ten_percent_vat7). discriminate.
Defined.

(** ** Facts about the updates of the selection *)

Lemma addAddon_ids_existing p q (l : list AddonEntry) :
  product_ids (map (fun a => if same_product p a
                             then {| entry_id := entry_id a;
                                     product := product a;
                                     qty := qty a + q |}
                             else a) l)
  = product_ids l.
Proof.
  unfold product_ids. rewrite map_map. apply map_ext.
  intros a. now destruct (same_product p a).
Qed.

Lemma find_none_fresh_id p (l : list AddonEntry) :
  List.find (same_product p) l = None -> id p ∉ product_ids l.
Proof.
  intros Hnone Hin. unfold product_ids in Hin.
  apply list_elem_of_In, in_map_iff in Hin as (a & Ha & Hin).
  pose proof (List.find_none _ _ Hnone a Hin) as Hf.
  unfold same_product in Hf. rewrite Ha, String.eqb_refl in Hf. discriminate.
Qed.

Lemma addAddon_preserves p q fresh prev :
  one_entry_per_product prev -> one_entry_per_product (addAddon p q fresh prev).
Proof.
  unfold one_entry_per_product, addAddon. intros Hnd.
  destruct (List.find (same_product p) (addons prev)) eqn:Hfind; cbn [addons].
  - now rewrite addAddon_ids_existing.
  - unfold product_ids. rewrite map_app. cbn [map].
    apply NoDup_app. split; [exact Hnd|]. split.
    + intros x Hx [->|[]%elem_of_nil]%elem_of_cons.
      now apply (find_none_fresh_id p (addons prev)).
    + apply NoDup_singleton.
Qed.

Lemma updateAddonQty_preserves i q prev :
  one_entry_per_product prev -> one_entry_per_product (updateAddonQty i q prev).
Proof.
  unfold one_entry_per_product, updateAddonQty, product_ids. cbn [addons].
  rewrite map_map.
  erewrite map_ext; [intros H; exact H|].
  intros a. cbn. now destruct (String.eqb (entry_id a) i).
Qed.

Lemma removeAddon_preserves i prev :
  one_entry_per_product prev -> one_entry_per_product (removeAddon i prev).
Proof.
  unfold one_entry_per_product, removeAddon, product_ids. cbn [addons].
  induction (addons prev) as [|a l IH]; cbn; [trivial|].
  intros [Ha Hl]%NoDup_cons.
  destruct (String.eqb (entry_id a) i); cbn; [now apply IH|].
  apply NoDup_cons. split; [|now apply IH].
  intros Hin. apply Ha.
  apply list_elem_of_In, in_map_iff in Hin as (a' & Ha' & [Hin _]%List.filter_In).
  apply list_elem_of_In, in_map_iff. now exists a'.
Qed.

Lemma selectBase_preserves cat product prev :
  one_entry_per_product prev ->
  one_entry_per_product (selectBase cat product prev).
Proof. intros H. exact H. Qed.

Lemma resetSpec_one_entry : one_entry_per_product resetSpec.
Proof. constructor. Qed.

(** Adding the monitor with quantity 1 and then with quantity 2 through
    [addAddon] leaves one entry, with quantity 3. *)
Lemma addAddon_twice_aggregates :
  addons (addAddon aoc24G2 2 "e2" (addAddon aoc24G2 1 "e1" resetSpec))
  = [ {| entry_id := "e1"; product := aoc24G2; qty := 3 |} ].
Proof. reflexivity. Qed.

(** Claim C9.  The add-as-option button of the search dialog appends an
    entry without looking for an existing one: after the monitor was added
    through [addAddon], pressing the button for the same monitor leaves two
    entries with that product id, so the invariant that [addAddon] keeps is
    broken by this update. *)
Theorem search_dialog_duplicates_addon :
  let b1 := addAddon aoc24G2 1 "e1" resetSpec in
  let b2 := searchAddOption aoc24G2 "e2" b1 in
  one_entry_per_product b1
  /\ addons b2
     = [ {| entry_id := "e1"; product := aoc24G2; qty := 1 |};
         {| entry_id := "e2"; product := aoc24G2; qty := 1 |} ]
  /\ ~ one_entry_per_product b2.
Proof.
  cbv zeta. split; [apply addAddon_preserves, resetSpec_one_entry|].
  split; [reflexivity|].
  unfold one_entry_per_product. cbn.
  intros [Hnotin _]%NoDup_cons. apply Hnotin. left.
Qed.

(** Claim C10.  [updateAddonQty] leaves the base selection and the number
    and order of the add-on entries as they were; an entry whose id is the
    given one keeps its id and product and gets the given quantity as it is
    (zero and negative quantities too); every other entry is unchanged. *)
Theorem updateAddonQty_stores_qty (i : string) (q : Q) (prev : BuildState) :
  base (updateAddonQty i q prev) = base prev
  /\ length (addons (updateAddonQty i q prev)) = length (addons prev)
  /\ forall (k : nat) (a : AddonEntry),
       addons prev !! k = Some a ->
       exists a' : AddonEntry,
         addons (updateAddonQty i q prev) !! k = Some a'
         /\ entry_id a' = entry_id a
         /\ product a' = product a
         /\ (entry_id a = i -> qty a' = q)
         /\ (entry_id a <> i -> a' = a).
Proof.
  split; [reflexivity|].
  split; [unfold updateAddonQty; cbn [addons]; apply length_map|].
  intros k a Hk. unfold updateAddonQty; cbn [addons].
  change (map ?f ?l) with (f <$> l).
  rewrite list_lookup_fmap, Hk. cbn.
  destruct (String.eqb_spec (entry_id a) i) as [Heq|Hne].
  - eexists. split; [reflexivity|]. cbn. tauto.
  - exists a. tauto.
Qed.

Lemma updateAddonQty_stores_qty_witness :
  addons (updateAddonQty "e1" (-5) two_addons)
  = [ {| entry_id := "e1"; product := aoc24G2; qty := -5 |};
      {| entry_id := "e2"; product := hdmiCable; qty := 2 |} ]
  /\ exists a' : AddonEntry,
       addons (updateAddonQty "e1" 0 two_addons) !! 0%nat = Some a'
       /\ entry_id a' = "e1"
       /\ product a' = aoc24G2
       /\ ("e1" = "e1" -> qty a' = 0)
       /\ ("e1" <> "e1" ->
           a' = {| entry_id := "e1"; product := aoc24G2; qty := 1 |}).
Proof.
  split; [reflexivity|].
  exact (proj2 (proj2 (updateAddonQty_stores_qty "e1" 0 two_addons)) 0%nat
           {| entry_id := "e1"; product := aoc24G2; qty := 1 |} eq_refl).
Defined.

(** ** Further facts about the compatibility checker *)

Lemma psu_note_never_error (parts : gmap BaseCategory Product) (n : Note) :
  In n (psuNotes parts) -> level n <> error.
Proof.
  unfold psuNotes. destruct (parts !! PSU); [|intros []].
  cbv zeta. intros [<-|[]]. now destruct (Qltb _ _).
Qed.

(** X1.  The report has level [error] exactly when it holds an error-level
    note, and such a note never belongs to the PSU sufficiency rule: a weak
    power supply alone cannot raise the report to [error]. *)
Theorem error_level_from_pairwise_rule (parts : gmap BaseCategory Product) :
  report_level (checkCompatibility parts) = error
  <-> exists n : Note,
        In n (notes (checkCompatibility parts))
        /\ level n = error /\ rule_of (msg n) <> PsuRule.
Proof.
  split.
  - intros Hlev.
    assert (He : existsb (is_level error) (notes (checkCompatibility parts))
                 = true).
    { unfold checkCompatibility in *. cbn [report_level notes] in *.
      destruct (existsb (is_level error) _); [reflexivity|].
      destruct (existsb (is_level warn) _); discriminate. }
    apply existsb_exists in He as (n & Hin & Hn).
    apply bool_decide_eq_true_1 in Hn.
    exists n. split; [exact Hin|]. split; [exact Hn|].
    intros Hr. apply note_in_segment in Hin. rewrite Hr in Hin.
    now apply (psu_note_never_error parts n).
  - intros (n & Hin & Hn & _).
    unfold checkCompatibility in *. cbn [report_level notes] in *.
    replace (existsb (is_level error) _) with true; [reflexivity|].
    symmetry. apply existsb_exists. exists n. split; [exact Hin|].
    now apply bool_decide_eq_true_2.
Qed.

Lemma error_level_from_pairwise_rule_witness :
  report_level (checkCompatibility mixed_build) = error.
Proof.
  apply (proj2 (error_level_from_pairwise_rule mixed_build)).
  exists {| level := error;
            msg := MsgSocketMismatch (Some "LGA1700") (Some "AM5") |}.
  split; [left; reflexivity|]. split; [reflexivity | discriminate].
Defined.

(** X2.  Without a motherboard, and with no CPU or no cooler, no rule can
    fail: the report never has level [error], whatever else is selected. *)
Theorem no_error_without_motherboard (parts : gmap BaseCategory Product) :
  parts !! Motherboard = None ->
  parts !! CPU = None \/ parts !! Cooler = None ->
  report_level (checkCompatibility parts) <> error.
Proof.
  intros Hmb Hcc Herr.
  apply error_level_from_pairwise_rule in Herr as (n & Hin & _ & Hpsu).
  apply note_in_segment, segment_needs_parts in Hin.
  destruct (rule_of (msg n)); cbn [rule_parts] in Hin;
    try congruence;
    repeat match goal with
      | H : Forall _ (_ :: _) |- _ => apply Forall_cons in H as [[? ?] H]
      end;
    destruct Hcc; congruence.
Qed.

Lemma no_error_without_motherboard_witness :
  report_level (checkCompatibility psu_only) <> error.
Proof.
  apply no_error_without_motherboard; [reflexivity | left; reflexivity].
Defined.

Lemma or0_nonneg (x : option Q) :
  (forall t, x = Some t -> 0 <= t) -> 0 <= or0 x.
Proof.
  intros H. destruct x as [t|]; cbn; [|apply Qle_refl].
  destruct (Qeq_bool t 0); [apply Qle_refl | now apply H].
Qed.

(** X3.  When no selected part has a negative [tdp], the estimated need is
    at least the 100 W headroom; a selected power supply whose wattage is
    missing or below 100 then gets the warning note, and the report is not
    [ok]. *)
Theorem psu_below_headroom_warns (parts : gmap BaseCategory Product)
    (psu : Product) :
  (forall c p t, parts !! c = Some p -> a_tdp (attributes p) = Some t -> 0 <= t) ->
  parts !! PSU = Some psu ->
  or0 (a_wattage (attributes psu)) < 100 ->
  100 <= estimateWattage parts
  /\ notes_of_rule PsuRule (checkCompatibility parts)
     = [ {| level := warn;
            msg := MsgPsuLow (or0 (a_wattage (attributes psu)))
                             (estimateWattage parts) |} ]
  /\ report_level (checkCompatibility parts) <> ok.
Proof.
  intros Htdp Hpsu Hlow.
  assert (Hest : 100 <= estimateWattage parts).
  { unfold estimateWattage. cbv zeta.
    assert (H1 : 0 <= or0 (attr parts CPU a_tdp)).
    { apply or0_nonneg. unfold attr. intros t.
      destruct (parts !! CPU) eqn:E; [|discriminate]. eauto. }
    assert (H2 : 0 <= or0 (attr parts GPU a_tdp)).
    { apply or0_nonneg. unfold attr. intros t.
      destruct (parts !! GPU) eqn:E; [|discriminate]. eauto. }
    rewrite <- (Qplus_0_l 100) at 1. apply Qplus_le_compat; [|apply Qle_refl].
    rewrite <- (Qplus_0_l 0). now apply Qplus_le_compat. }
  assert (Hlt : Qltb (or0 (a_wattage (attributes psu))) (estimateWattage parts)
                = true).
  { apply Qltb_lt. eapply Qlt_le_trans; eassumption. }
  assert (Hnote : notes_of_rule PsuRule (checkCompatibility parts)
     = [ {| level := warn;
            msg := MsgPsuLow (or0 (a_wattage (attributes psu)))
                             (estimateWattage parts) |} ]).
  { rewrite notes_of_rule_segment. cbn [segment]. unfold psuNotes.
    rewrite Hpsu. cbv zeta. now rewrite Hlt. }
  split; [exact Hest|]. split; [exact Hnote|].
  intros Hok.
  assert (Hin : In {| level := warn;
            msg := MsgPsuLow (or0 (a_wattage (attributes psu)))
                             (estimateWattage parts) |}
                   (notes (checkCompatibility parts))).
  { eapply (proj1 (List.filter_In _ _ _)). unfold notes_of_rule in Hnote.
    rewrite Hnote. left. reflexivity. }
  unfold checkCompatibility in Hok, Hin. cbn [report_level notes] in Hok, Hin.
  destruct (existsb (is_level error) _); [discriminate|].
  destruct (existsb (is_level warn) _) eqn:Hw; [discriminate|].
  assert (Hw' : existsb (is_level warn)
    (socketNotes parts ++ ramNotes parts ++ pcieNotes parts ++ caseNotes parts
     ++ coolerNotes parts ++ storageNotes parts ++ psuNotes parts) = true).
  { apply existsb_exists. eexists. split; [exact Hin|]. reflexivity. }
  congruence.
Qed.

Lemma psu_below_headroom_warns_witness :
  100 <= estimateWattage (<[PSU := unratedPSU]> am5_build)
  /\ notes_of_rule PsuRule (checkCompatibility (<[PSU := unratedPSU]> am5_build))
     = [ {| level := warn;
            msg := MsgPsuLow (or0 (a_wattage (attributes unratedPSU)))
                     (estimateWattage (<[PSU := unratedPSU]> am5_build)) |} ]
  /\ report_level (checkCompatibility (<[PSU := unratedPSU]> am5_build)) <> ok.
Proof.
  apply (psu_below_headroom_warns (<[PSU := unratedPSU]> am5_build) unratedPSU).
  - intros c p t Hc Ht.
    destruct c; vm_compute in Hc; try discriminate;
      injection Hc as <-; vm_compute in Ht; try discriminate;
      injection Ht as <-; discriminate.
  - reflexivity.
  - reflexivity.
Defined.

(** ** Smart Sync and the checker together *)

Ltac decide_categories_in H :=
  repeat match type of H with
    | context [bool_decide (@eq BaseCategory ?x ?y)] =>
        let b := eval vm_compute in (bool_decide (x = y)) in
        change (bool_decide (x = y)) with b in H
    end;
  rewrite ?andb_false_r, ?andb_true_r, ?orb_false_r in H;
  cbn [andb orb negb] in H.

Lemma applyAttrFilters_In cat items f p :
  In p (applyAttrFilters cat items f) <-> In p items /\ keep cat f p = true.
Proof. rewrite applyAttrFilters_filter. apply List.filter_In. Qed.

Lemma strict_ne_false (x y : option string) : strict_ne x y = false -> x = y.
Proof.
  unfold strict_ne, strict_eq. rewrite negb_false_iff.
  apply bool_decide_eq_true_1.
Qed.

Lemma attr_lookup {A} (b : gmap BaseCategory Product) c p
    (k : Attributes -> option A) :
  b !! c = Some p -> attr b c k = k (attributes p).
Proof. unfold attr. now intros ->. Qed.

Lemma attr_insert_ne {A} (b : gmap BaseCategory Product) c c' p
    (k : Attributes -> option A) :
  c <> c' -> attr (<[c := p]> b) c' k = attr b c' k.
Proof. intros H. unfold attr. now rewrite lookup_insert_ne. Qed.

(** With a CPU that has a socket, the derived [socket] and [coolerSocket]
    are the socket of the CPU. *)
Lemma derive_socket_of_cpu b cur cpu :
  b !! CPU = Some cpu ->
  truthy_str (a_socket (attributes cpu)) = true ->
  f_socket (deriveFiltersFromSelection b cur) = a_socket (attributes cpu)
  /\ f_coolerSocket (deriveFiltersFromSelection b cur)
     = a_socket (attributes cpu).
Proof.
  intros Hc Ht. rewrite derive_fields. cbn.
  rewrite (attr_lookup b CPU cpu a_socket Hc), Ht. now split.
Qed.

(** X4.  A cooler that passes the filters derived from a selection whose CPU
    has a socket supports that socket: selecting it gives the ok note of the
    cooler rule. *)
Theorem synced_cooler_fits_cpu (build : BuildState) (cur : AttrFilters)
    (items : list Product) (cpu p : Product) :
  base build !! CPU = Some cpu ->
  truthy_str (a_socket (attributes cpu)) = true ->
  In p (applyAttrFilters Cooler items
          (deriveFiltersFromSelection (base build) cur)) ->
  notes_of_rule CoolerRule
    (checkCompatibility (base (selectBase Cooler (Some p) build)))
  = [ {| level := ok; msg := MsgCoolerOk |} ].
Proof.
  intros Hcpu Ht [_ Hk]%applyAttrFilters_In.
  apply keep_true_tests in Hk. cbv zeta in Hk.
  destruct Hk as (_ & _ & _ & _ & _ & _ & _ & K8).
  destruct (derive_socket_of_cpu _ cur _ Hcpu Ht) as [_ Hcs].
  rewrite Hcs, Ht in K8. decide_categories_in K8.
  apply negb_false_iff in K8.
  rewrite notes_of_rule_segment. cbn [segment selectBase base].
  unfold coolerNotes.
  rewrite lookup_insert_eq, lookup_insert_ne, Hcpu by discriminate.
  cbv zeta. now rewrite K8.
Qed.

Lemma synced_cooler_fits_cpu_witness :
  notes_of_rule CoolerRule
    (checkCompatibility (base (selectBase Cooler (Some ak400) am5_selection)))
  = [ {| level := ok; msg := MsgCoolerOk |} ].
Proof.
  apply (synced_cooler_fits_cpu am5_selection noFilters [ak400] ryzen5 ak400).
  - reflexivity.
  - reflexivity.
  - left. reflexivity.
Defined.

(** X5.  A motherboard that passes the filters derived from a selection
    whose CPU has a socket has the socket of the CPU: selecting it gives the
    ok note of the socket rule. *)
Theorem synced_motherboard_fits_cpu (build : BuildState) (cur : AttrFilters)
    (items : list Product) (cpu p : Product) :
  base build !! CPU = Some cpu ->
  truthy_str (a_socket (attributes cpu)) = true ->
  In p (applyAttrFilters Motherboard items
          (deriveFiltersFromSelection (base build) cur)) ->
  a_socket (attributes p) = a_socket (attributes cpu)
  /\ notes_of_rule SocketRule
       (checkCompatibility (base (selectBase Motherboard (Some p) build)))
     = [ {| level := ok; msg := MsgSocketOk |} ].
Proof.
  intros Hcpu Ht [_ Hk]%applyAttrFilters_In.
  apply keep_true_tests in Hk. cbv zeta in Hk.
  destruct Hk as (K1 & _).
  destruct (derive_socket_of_cpu _ cur _ Hcpu Ht) as [Hs _].
  rewrite Hs, Ht in K1. decide_categories_in K1.
  apply strict_ne_false in K1. split; [exact K1|].
  rewrite notes_of_rule_segment. cbn [segment selectBase base].
  unfold socketNotes.
  rewrite lookup_insert_eq, lookup_insert_ne, Hcpu by discriminate.
  unfold strict_eq. now rewrite bool_decide_eq_true_2 by congruence.
Qed.

Lemma synced_motherboard_fits_cpu_witness :
  a_socket (attributes tufB650) = a_socket (attributes ryzen5)
  /\ notes_of_rule SocketRule
       (checkCompatibility
          (base (selectBase Motherboard (Some tufB650) am5_selection)))
     = [ {| level := ok; msg := MsgSocketOk |} ].
Proof.
  apply (synced_motherboard_fits_cpu am5_selection noFilters
           [tufB650; b760m] ryzen5 tufB650).
  - reflexivity.
  - reflexivity.
  - left. reflexivity.
Defined.

(** X6.  The socket filter follows the CPU, not the motherboard: with a CPU
    that has a socket selected, the selected CPU stays among the CPU
    candidates, and a motherboard with another socket, the selected one
    included, is dropped from the motherboard candidates. *)
Theorem socket_filter_follows_cpu (build : BuildState) (cur : AttrFilters)
    (cpu : Product) :
  base build !! CPU = Some cpu ->
  truthy_str (a_socket (attributes cpu)) = true ->
  (forall items : list Product,
     In cpu items ->
     In cpu (applyAttrFilters CPU items
               (deriveFiltersFromSelection (base build) cur)))
  /\ (forall (items : list Product) (mb : Product),
        a_socket (attributes mb) <> a_socket (attributes cpu) ->
        ~ In mb (applyAttrFilters Motherboard items
                   (deriveFiltersFromSelection (base build) cur))).
Proof.
  intros Hcpu Ht. split.
  - intros items Hin. apply applyAttrFilters_In. split; [exact Hin|].
    unfold keep. cbv zeta.
    destruct (derive_socket_of_cpu _ cur _ Hcpu Ht) as [Hs _].
    rewrite Hs. decide_categories.
    unfold strict_ne, strict_eq.
    rewrite bool_decide_eq_true_2 by reflexivity. cbn [negb].
    rewrite ?andb_false_r. cbn [andb orb].
    now destruct (f_minPSUWatt _).
  - intros items mb Hne Hin.
    apply (synced_motherboard_fits_cpu build cur items cpu mb Hcpu Ht) in Hin.
    now destruct Hin.
Qed.

Lemma socket_filter_follows_cpu_witness :
  In i5_13400F (applyAttrFilters CPU [ryzen5; i5_13400F]
                  (deriveFiltersFromSelection (base mixed_selection) noFilters))
  /\ ~ In tufB650 (applyAttrFilters Motherboard [tufB650; b760m]
                     (deriveFiltersFromSelection (base mixed_selection)
                        noFilters)).
Proof.
  destruct (socket_filter_follows_cpu mixed_selection noFilters i5_13400F)
    as [Hkeep Hdrop]; [reflexivity | reflexivity |].
  split.
  - apply Hkeep. right. left. reflexivity.
  - apply Hdrop. discriminate.
Defined.

(** X7.  With a motherboard that has a socket and no CPU socket in the
    selection, a CPU that passes the derived filters has the socket of the
    motherboard: selecting it gives the ok note of the socket rule. *)
Theorem synced_cpu_fits_motherboard (build : BuildState) (cur : AttrFilters)
    (items : list Product) (mb p : Product) :
  base build !! Motherboard = Some mb ->
  truthy_str (a_socket (attributes mb)) = true ->
  truthy_str (attr (base build) CPU a_socket) = false ->
  In p (applyAttrFilters CPU items
          (deriveFiltersFromSelection (base build) cur)) ->
  notes_of_rule SocketRule
    (checkCompatibility (base (selectBase CPU (Some p) build)))
  = [ {| level := ok; msg := MsgSocketOk |} ].
Proof.
  intros Hmb Ht Hno [_ Hk]%applyAttrFilters_In.
  apply keep_true_tests in Hk. cbv zeta in Hk.
  destruct Hk as (K1 & _).
  assert (Hs : f_socket (deriveFiltersFromSelection (base build) cur)
               = a_socket (attributes mb)).
  { rewrite derive_fields. cbn [f_socket].
    now rewrite Hno, (attr_lookup _ Motherboard mb a_socket Hmb), Ht. }
  rewrite Hs, Ht in K1.
  decide_categories_in K1. apply strict_ne_false in K1.
  rewrite notes_of_rule_segment. cbn [segment selectBase base].
  unfold socketNotes.
  rewrite lookup_insert_eq, lookup_insert_ne, Hmb by discriminate.
  unfold strict_eq. now rewrite bool_decide_eq_true_2 by congruence.
Qed.

Lemma synced_cpu_fits_motherboard_witness :
  notes_of_rule SocketRule
    (checkCompatibility (base (selectBase CPU (Some ryzen5) board_selection)))
  = [ {| level := ok; msg := MsgSocketOk |} ].
Proof.
  apply (synced_cpu_fits_motherboard board_selection noFilters
           [ryzen5; i5_13400F] tufB650 ryzen5).
  - reflexivity.
  - reflexivity.
  - reflexivity.
  - left. reflexivity.
Defined.

(** X8.  With a motherboard that has a form factor, a case that passes the
    derived filters lists that form factor: selecting it gives the ok note
    of the case rule. *)
Theorem synced_case_fits_motherboard (build : BuildState) (cur : AttrFilters)
    (items : list Product) (mb p : Product) :
  base build !! Motherboard = Some mb ->
  truthy_str (a_formFactor (attributes mb)) = true ->
  In p (applyAttrFilters Case items
          (deriveFiltersFromSelection (base build) cur)) ->
  notes_of_rule CaseRule
    (checkCompatibility (base (selectBase Case (Some p) build)))
  = [ {| level := ok; msg := MsgCaseOk |} ].
Proof.
  intros Hmb Ht [_ Hk]%applyAttrFilters_In.
  apply keep_true_tests in Hk. cbv zeta in Hk.
  destruct Hk as (_ & _ & _ & K4 & _).
  assert (Hf : f_formFactor (deriveFiltersFromSelection (base build) cur)
               = a_formFactor (attributes mb)).
  { rewrite derive_fields. cbn [f_formFactor].
    now rewrite (attr_lookup _ Motherboard mb a_formFactor Hmb), Ht. }
  rewrite Hf, Ht in K4.
  decide_categories_in K4. apply negb_false_iff in K4.
  rewrite notes_of_rule_segment. cbn [segment selectBase base].
  unfold caseNotes.
  rewrite lookup_insert_eq, lookup_insert_ne, Hmb by discriminate.
  cbv zeta. now rewrite K4.
Qed.

Lemma synced_case_fits_motherboard_witness :
  notes_of_rule CaseRule
    (checkCompatibility (base (selectBase Case (Some h5Flow) board_selection)))
  = [ {| level := ok; msg := MsgCaseOk |} ].
Proof.
  apply (synced_case_fits_motherboard board_selection noFilters
           [h5Flow; nr200] tufB650 h5Flow).
  - reflexivity.
  - reflexivity.
  - left. reflexivity.
Defined.

(** X9.  With a motherboard whose first storage port is a non-empty string
    and no storage interface in the selection, a drive that passes the
    derived filters has that first port as its interface: selecting it gives
    the ok note of the storage rule.  Drives for the other ports of the
    motherboard are not offered. *)
Theorem synced_storage_fits_motherboard (build : BuildState)
    (cur : AttrFilters) (items : list Product) (mb p : Product)
    (port : string) (ports : list string) :
  base build !! Motherboard = Some mb ->
  a_storage (attributes mb) = Some (port :: ports) ->
  port <> "" ->
  truthy_str (attr (base build) Storage a_interface) = false ->
  In p (applyAttrFilters Storage items
          (deriveFiltersFromSelection (base build) cur)) ->
  a_interface (attributes p) = Some port
  /\ notes_of_rule StorageRule
       (checkCompatibility (base (selectBase Storage (Some p) build)))
     = [ {| level := ok; msg := MsgStorageOk |} ].
Proof.
  intros Hmb Hst Hport Hno [_ Hk]%applyAttrFilters_In.
  assert (Htp : truthy_str (Some port) = true).
  { cbn. apply negb_true_iff. now apply String.eqb_neq. }
  apply keep_true_tests in Hk. cbv zeta in Hk.
  destruct Hk as (_ & _ & _ & _ & K5 & _).
  assert (Hf : f_storageInterface
                 (deriveFiltersFromSelection (base build) cur) = Some port).
  { rewrite derive_fields. cbn [f_storageInterface].
    rewrite Hno, (attr_lookup _ Motherboard mb a_storage Hmb), Hst.
    cbn [first_of]. now rewrite bool_decide_eq_true_2 by eauto. }
  rewrite Hf, Htp in K5. decide_categories_in K5. apply strict_ne_false in K5.
  split; [exact K5|].
  rewrite notes_of_rule_segment. cbn [segment selectBase base].
  unfold storageNotes.
  rewrite lookup_insert_eq, lookup_insert_ne, Hmb, Hst, K5, Htp by discriminate.
  cbv zeta. unfold includes.
  rewrite bool_decide_eq_true_2 by apply list_elem_of_here. reflexivity.
Qed.

Lemma synced_storage_fits_motherboard_witness :
  a_interface (attributes sn770) = Some "M.2 NVMe"
  /\ notes_of_rule StorageRule
       (checkCompatibility
          (base (selectBase Storage (Some sn770) board_selection)))
     = [ {| level := ok; msg := MsgStorageOk |} ].
Proof.
  apply (synced_storage_fits_motherboard board_selection noFilters [sn770]
           tufB650 sn770 "M.2 NVMe" ["SATA"]).
  - reflexivity.
  - reflexivity.
  - discriminate.
  - reflexivity.
  - left. reflexivity.
Defined.

Lemma estimateWattage_insert (b : gmap BaseCategory Product) c p :
  c <> CPU -> c <> GPU ->
  estimateWattage (<[c := p]> b) = estimateWattage b.
Proof.
  intros H1 H2. unfold estimateWattage.
  now rewrite !attr_insert_ne by assumption.
Qed.

(** X10.  Once a power supply is selected, a power supply that passes the
    derived filters covers the estimated need: selecting it instead gives
    the ok note of the PSU rule. *)
Theorem synced_psu_suffices (build : BuildState) (cur : AttrFilters)
    (items : list Product) (p : Product) :
  is_Some (base build !! PSU) ->
  In p (applyAttrFilters PSU items
          (deriveFiltersFromSelection (base build) cur)) ->
  estimateWattage (base build) <= or0 (a_wattage (attributes p))
  /\ notes_of_rule PsuRule
       (checkCompatibility (base (selectBase PSU (Some p) build)))
     = [ {| level := ok; msg := MsgPsuOk (estimateWattage (base build)) |} ].
Proof.
  intros Hpsu [_ Hk]%applyAttrFilters_In.
  rewrite keep_PSU, derive_fields in Hk. cbn [f_minPSUWatt] in Hk.
  rewrite bool_decide_eq_true_2 in Hk by exact Hpsu.
  apply negb_true_iff, not_true_iff_false in Hk. rewrite Qltb_lt in Hk.
  apply Qnot_lt_le in Hk.
  assert (Hle : estimateWattage (base build) <= or0 (a_wattage (attributes p))).
  { eapply Qle_trans; [apply Q.le_max_l | exact Hk]. }
  split; [exact Hle|].
  rewrite notes_of_rule_segment. cbn [segment selectBase base].
  unfold psuNotes. rewrite lookup_insert_eq. cbv zeta.
  rewrite estimateWattage_insert by discriminate.
  replace (Qltb _ _) with false; [reflexivity|].
  symmetry. apply not_true_iff_false. rewrite Qltb_lt.
  now apply Qle_not_lt.
Qed.

Lemma synced_psu_suffices_witness :
  estimateWattage (base gaming_selection) <= or0 (a_wattage (attributes rm750))
  /\ notes_of_rule PsuRule
       (checkCompatibility (base (selectBase PSU (Some rm750) gaming_selection)))
     = [ {| level := ok;
            msg := MsgPsuOk (estimateWattage (base gaming_selection)) |} ].
Proof.
  apply (synced_psu_suffices gaming_selection noFilters [rm750; neoEco550] rm750).
  - eexists. reflexivity.
  - left. reflexivity.
Defined.

Lemma truthy_str_override (x y : option string) :
  truthy_str x = true ->
  x = match x with
      | Some v => Some v
      | None => y
      end.
Proof. destruct x; [reflexivity | discriminate]. Qed.

(** X11.  Deriving from a previous filter set is the same as deriving from
    the empty filter set (the "sync now" button) and laying the result over
    the previous one: what the selection implies wins, everything else is
    kept. *)
Theorem derive_is_override (b : gmap BaseCategory Product)
    (current : AttrFilters) :
  deriveFiltersFromSelection b current
  = override (deriveFiltersFromSelection b noFilters) current.
Proof.
  rewrite (derive_fields b current), (derive_fields b noFilters).
  unfold override. cbn.
  destruct (truthy_str (attr b CPU a_socket)) eqn:E1,
           (truthy_str (attr b Motherboard a_socket)) eqn:E2,
           (truthy_str (attr b Motherboard a_ramType)) eqn:E3,
           (truthy_str (attr b Motherboard a_formFactor)) eqn:E4,
           (truthy_str (attr b Storage a_interface)) eqn:E5;
    repeat match goal with
      | H : truthy_str ?x = true |- _ =>
          apply truthy_str_Some in H as [? ->]
      end;
    destruct (first_of (attr b Motherboard a_storage)) eqn:E6;
    destruct (bool_decide (is_Some (b !! PSU)));
    try reflexivity;
    try (rewrite bool_decide_eq_true_2 by eauto; reflexivity).
Qed.

(** ** Further facts about the quote calculator *)

Lemma netBeforeVAT_nonneg build pricing : 0 <= netBeforeVAT build pricing.
Proof. apply Q.le_max_l. Qed.

(** X12.  For a selection with a non-negative subtotal and a non-negative
    discount value, the discount lies between 0 and the subtotal, the net
    amount is the subtotal minus the discount and lies between 0 and the
    subtotal, and with VAT off or a non-negative VAT percentage the total is
    not below the net amount. *)
Theorem discount_within_subtotal (build : BuildState) (pricing : Pricing) :
  0 <= subtotal build ->
  0 <= discountValue pricing ->
  0 <= discount build pricing
  /\ discount build pricing <= subtotal build
  /\ netBeforeVAT build pricing == subtotal build - discount build pricing
  /\ netBeforeVAT build pricing <= subtotal build
  /\ (vatEnabled pricing = false \/ 0 <= vatPercent pricing ->
      netBeforeVAT build pricing <= total build pricing).
Proof.
  intros Hs Hd.
  assert (H0 : 0 <= discount build pricing).
  { unfold discount. destruct (discountType pricing).
    - apply Qle_refl.
    - apply Q.min_glb; [exact Hs|]. rewrite num_or0_eq.
      apply Qle_shift_div_l; [reflexivity|]. rewrite Qmult_0_l.
      now apply Qmult_le_0_compat.
    - apply Q.min_glb; [exact Hs|]. now rewrite num_or0_eq. }
  assert (H1 : discount build pricing <= subtotal build).
  { apply discount_le_subtotal. now right. }
  assert (H2 : netBeforeVAT build pricing
               == subtotal build - discount build pricing).
  { unfold netBeforeVAT. apply Q.max_r.
    rewrite <- (Qplus_opp_r (discount build pricing)).
    apply Qplus_le_compat; [exact H1 | apply Qle_refl]. }
  split; [exact H0|]. split; [exact H1|]. split; [exact H2|]. split.
  - rewrite H2. rewrite <- (Qplus_0_r (subtotal build)) at 2.
    apply Qplus_le_compat; [apply Qle_refl|].
    apply (Qopp_le_compat 0). exact H0.
  - intros Hv. unfold total.
    rewrite <- (Qplus_0_r (netBeforeVAT build pricing)) at 1.
    apply Qplus_le_compat; [apply Qle_refl|].
    unfold vat. destruct Hv as [-> | Hv]; [apply Qle_refl|].
    destruct (vatEnabled pricing); [|apply Qle_refl].
    rewrite num_or0_eq. apply Qle_shift_div_l; [reflexivity|].
    rewrite Qmult_0_l. apply Qmult_le_0_compat; [|exact Hv].
    apply netBeforeVAT_nonneg.
Qed.

Lemma discount_within_subtotal_witness :
  0 <= discount quote_build ten_percent_vat7
  /\ discount quote_build ten_percent_vat7 <= subtotal quote_build
  /\ netBeforeVAT quote_build ten_percent_vat7
     == subtotal quote_build - discount quote_build ten_percent_vat7
  /\ netBeforeVAT quote_build ten_percent_vat7 <= subtotal quote_build
  /\ (vatEnabled ten_percent_vat7 = false \/ 0 <= vatPercent ten_percent_vat7 ->
      netBeforeVAT quote_build ten_percent_vat7
      <= total quote_build ten_percent_vat7).
Proof.
  apply (discount_within_subtotal quote_build ten_percent_vat7); discriminate.
Defined.

(** X13.  A fixed discount of at least the subtotal is capped at the
    subtotal: the net amount, the tax and the total are 0. *)
Theorem full_discount_gives_zero_total (build : BuildState)
    (pricing : Pricing) :
  discountType pricing = fixed ->
  subtotal build <= discountValue pricing ->
  discount build pricing == subtotal build
  /\ netBeforeVAT build pricing == 0
  /\ vat build pricing == 0
  /\ total build pricing == 0.
Proof.
  intros Ht Hle.
  assert (Hd : discount build pricing == subtotal build).
  { unfold discount. rewrite Ht, num_or0_eq. now apply Q.min_l. }
  assert (Hn : netBeforeVAT build pricing == 0).
  { unfold netBeforeVAT. rewrite Hd. apply Q.max_l.
    unfold Qminus. rewrite Qplus_opp_r. apply Qle_refl. }
  assert (Hv : vat build pricing == 0).
  { unfold vat. destruct (vatEnabled pricing); [|reflexivity].
    rewrite Hn. unfold Qdiv. ring. }
  repeat split; try assumption.
  unfold total. rewrite Hn, Hv. reflexivity.
Qed.

Lemma full_discount_gives_zero_total_witness :
  discount small_build (fixed_discount 10000) == 500
  /\ netBeforeVAT small_build (fixed_discount 10000) == 0
  /\ vat small_build (fixed_discount 10000) == 0
  /\ total small_build (fixed_discount 10000) == 0.
Proof.
  apply (full_discount_gives_zero_total small_build (fixed_discount 10000)).
  - reflexivity.
  - discriminate.
Defined.

(** X14.  The discount has no lower bound: on a positive subtotal a negative
    discount value, fixed or in percent, gives a negative discount and a net
    amount above the subtotal. *)
Theorem negative_discount_raises_net (build : BuildState) (pricing : Pricing) :
  0 < subtotal build ->
  discountValue pricing < 0 ->
  discountType pricing <> none ->
  discount build pricing < 0
  /\ subtotal build < netBeforeVAT build pricing.
Proof.
  intros Hs Hd Ht.
  assert (Hneg : discount build pricing < 0).
  { unfold discount. destruct (discountType pricing); [congruence| |];
      rewrite num_or0_eq.
    - eapply Qle_lt_trans; [apply Q.le_min_r|].
      apply Qlt_shift_div_r; [reflexivity|]. rewrite Qmult_0_l.
      rewrite <- (Qmult_0_r (subtotal build)).
      rewrite !(Qmult_comm (subtotal build)).
      now apply Qmult_lt_compat_r.
    - eapply Qle_lt_trans; [apply Q.le_min_r | exact Hd]. }
  split; [exact Hneg|].
  unfold netBeforeVAT.
  eapply Qlt_le_trans; [|apply Q.le_max_r].
  rewrite <- (Qplus_0_r (subtotal build)) at 1.
  apply Qplus_lt_r. apply (Qopp_lt_compat _ 0). exact Hneg.
Qed.

Lemma negative_discount_raises_net_witness :
  discount small_build (fixed_discount (-100)) < 0
  /\ subtotal small_build < netBeforeVAT small_build (fixed_discount (-100)).
Proof.
  apply (negative_discount_raises_net small_build (fixed_discount (-100)));
    [reflexivity | reflexivity | discriminate].
Defined.

(** X16.  Selecting a part removes its category from the missing required
    categories and changes nothing else in that list; deselecting a required
    category puts it on the list; for the empty selection every required
    category is missing. *)
Theorem missingRequired_follows_selection (cat : BaseCategory) (p : Product)
    (build : BuildState) (required : list BaseCategory) :
  missingRequired (selectBase cat (Some p) build) required
  = List.filter (fun c => negb (bool_decide (c = cat)))
                (missingRequired build required)
  /\ (In cat required ->
      In cat (missingRequired (selectBase cat None build) required))
  /\ missingRequired resetSpec required = required.
Proof.
  unfold missingRequired. cbn [selectBase base resetSpec]. split; [|split].
  - induction required as [|c l IH]; [reflexivity|]. cbn [List.filter].
    destruct (decide (c = cat)) as [->|Hne].
    + rewrite lookup_insert_eq.
      rewrite (bool_decide_eq_true_2 (is_Some (Some p))) by eauto.
      cbn [negb]. rewrite IH.
      destruct (negb (bool_decide (is_Some (base build !! cat))));
        [|reflexivity].
      cbn [List.filter]. now rewrite bool_decide_eq_true_2 by reflexivity.
    + rewrite lookup_insert_ne by congruence.
      destruct (negb (bool_decide (is_Some (base build !! c)))); [|exact IH].
      cbn [List.filter]. rewrite bool_decide_eq_false_2 by exact Hne.
      cbn [negb]. now rewrite IH.
  - intros Hin. apply List.filter_In. split; [exact Hin|].
    rewrite lookup_delete_eq. apply negb_true_iff, bool_decide_eq_false_2.
    intros [? ?]; discriminate.
  - apply filter_keep_all. intros c. rewrite lookup_empty.
    apply negb_true_iff, bool_decide_eq_false_2. intros [? ?]; discriminate.
Qed.

Lemma missingRequired_follows_selection_witness :
  missingRequired am5_selection [CPU; Motherboard; PSU] = [Motherboard; PSU]
  /\ missingRequired (selectBase PSU (Some rm750) am5_selection)
       [CPU; Motherboard; PSU] = [Motherboard]
  /\ In CPU (missingRequired (selectBase CPU None am5_selection)
               [CPU; Motherboard; PSU]).
Proof.
  destruct (missingRequired_follows_selection PSU rm750 am5_selection
              [CPU; Motherboard; PSU]) as (Hsel & _ & _).
  destruct (missingRequired_follows_selection CPU ryzen5 am5_selection
              [CPU; Motherboard; PSU]) as (_ & Hskip & _).
  split; [reflexivity|]. split.
  - rewrite Hsel. reflexivity.
  - apply Hskip. left. reflexivity.
Defined.

(** ** Further facts about the updates of the selection *)

Lemma map_id_ext {A} (f : A -> A) (l : list A) :
  (forall x, In x l -> f x = x) -> map f l = l.
Proof.
  induction l as [|x l IH]; intros H; cbn; [reflexivity|].
  rewrite H by (left; reflexivity). rewrite IH; [reflexivity|].
  intros y Hy. apply H. now right.
Qed.

Lemma filter_keep_all_in {A} (k : A -> bool) (l : list A) :
  (forall x, In x l -> k x = true) -> List.filter k l = l.
Proof.
  induction l as [|x l IH]; intros H; cbn; [reflexivity|].
  rewrite H by (left; reflexivity). rewrite IH; [reflexivity|].
  intros y Hy. apply H. now right.
Qed.

(** X17.  An entry id that no add-on entry carries changes nothing: both
    [updateAddonQty] and [removeAddon] return the selection as it was. *)
Theorem unknown_entry_id_changes_nothing (i : string) (q : Q)
    (prev : BuildState) :
  (forall a, In a (addons prev) -> entry_id a <> i) ->
  updateAddonQty i q prev = prev /\ removeAddon i prev = prev.
Proof.
  intros Hno. destruct prev as [b l]. cbn [addons] in Hno.
  unfold updateAddonQty, removeAddon. cbn [base addons]. split; f_equal.
  - apply map_id_ext. intros a Ha.
    now rewrite (proj2 (String.eqb_neq _ _) (Hno a Ha)).
  - apply filter_keep_all_in. intros a Ha.
    now rewrite (proj2 (String.eqb_neq _ _) (Hno a Ha)).
Qed.

Lemma unknown_entry_id_changes_nothing_witness :
  updateAddonQty "e9" 7 two_addons = two_addons
  /\ removeAddon "e9" two_addons = two_addons.
Proof.
  apply (unknown_entry_id_changes_nothing "e9" 7 two_addons).
  intros a [<-|[<-|[]]]; discriminate.
Defined.

(** X18.  Adding a product that the selection does not hold yet, under an
    entry id that is not in use, and removing that entry again gives back
    the selection. *)
Theorem addAddon_then_removeAddon (p : Product) (q : Q) (fresh : string)
    (prev : BuildState) :
  List.find (same_product p) (addons prev) = None ->
  (forall a, In a (addons prev) -> entry_id a <> fresh) ->
  removeAddon fresh (addAddon p q fresh prev) = prev.
Proof.
  intros Hfind Hfresh. destruct prev as [b l]. cbn [addons] in *.
  unfold addAddon, removeAddon. cbn [addons]. rewrite Hfind. cbn [base addons].
  f_equal. rewrite List.filter_app. cbn [List.filter entry_id].
  rewrite String.eqb_refl. cbn [negb]. rewrite app_nil_r.
  apply filter_keep_all_in. intros a Ha.
  now rewrite (proj2 (String.eqb_neq _ _) (Hfresh a Ha)).
Qed.

Lemma addAddon_then_removeAddon_witness :
  removeAddon "e7" (addAddon furyDDR5 2 "e7" two_addons) = two_addons.
Proof.
  apply (addAddon_then_removeAddon furyDDR5 2 "e7" two_addons).
  - reflexivity.
  - intros a [<-|[<-|[]]]; discriminate.
Defined.

Lemma addonTotal_lines build : addonTotal build == sumQ (map line_amount (addons build)).
Proof. apply addonTotal_sum. Qed.

Lemma sumQ_app (l l' : list Q) : sumQ (l ++ l') == sumQ l + sumQ l'.
Proof.
  induction l as [|x l IH]; unfold sumQ in *; cbn; [ring|].
  rewrite IH. ring.
Qed.

Lemma find_same_product_unique p e (l : list AddonEntry) (q : Q) :
  NoDup (product_ids l) ->
  List.find (same_product p) l = Some e ->
  sumQ (map line_amount
          (map (fun a => if same_product p a
                         then {| entry_id := entry_id a;
                                 product := product a;
                                 qty := qty a + q |}
                         else a) l))
  == sumQ (map line_amount l) + price (product e) * q.
Proof.
  intros Hnd Hfind. induction l as [|a l IH]; [discriminate|].
  cbn [List.find] in Hfind. cbn [product_ids map] in Hnd.
  apply NoDup_cons in Hnd as [Ha Hnd].
  cbn [map]. destruct (same_product p a) eqn:Hs.
  - injection Hfind as <-.
    rewrite (map_id_ext _ l).
    + unfold sumQ, line_amount; cbn. ring.
    + intros a' Ha'. destruct (same_product p a') eqn:Hs'; [|reflexivity].
      exfalso. apply Ha. unfold same_product in Hs, Hs'.
      apply String.eqb_eq in Hs, Hs'. rewrite Hs, <- Hs'.
      apply list_elem_of_In, in_map_iff. now exists a'.
  - unfold sumQ in *; cbn. rewrite (IH Hnd Hfind).
    unfold sumQ; cbn. ring.
Qed.

(** X19.  [addAddon] raises the add-on total by price times the added
    quantity.  For a product not yet in the selection the price is that of
    the product passed in and a new entry is appended; for a product already
    there (one entry per product) the entry keeps the product record it was
    created with, so the price charged for the added quantity is the stored
    one, and the number of entries is unchanged. *)
Theorem addAddon_raises_total (p : Product) (q : Q) (fresh : string)
    (prev : BuildState) :
  (List.find (same_product p) (addons prev) = None ->
   addonTotal (addAddon p q fresh prev) == addonTotal prev + price p * q
   /\ length (addons (addAddon p q fresh prev)) = S (length (addons prev)))
  /\ (forall e : AddonEntry,
        one_entry_per_product prev ->
        List.find (same_product p) (addons prev) = Some e ->
        addonTotal (addAddon p q fresh prev)
        == addonTotal prev + price (product e) * q
        /\ map product (addons (addAddon p q fresh prev))
           = map product (addons prev)).
Proof.
  split.
  - intros Hfind. unfold addAddon. rewrite Hfind. split.
    + rewrite !addonTotal_lines. cbn [addons].
      rewrite map_app, sumQ_app. unfold sumQ, line_amount; cbn. ring.
    + cbn [addons]. rewrite length_app. cbn. lia.
  - intros e Hone Hfind. unfold addAddon. rewrite Hfind. split.
    + rewrite !addonTotal_lines. cbn [addons].
      apply (find_same_product_unique p e (addons prev) q Hone Hfind).
    + cbn [addons]. rewrite map_map. apply map_ext.
      intros a. now destruct (same_product p a).
Qed.

Lemma addAddon_raises_total_witness :
  addonTotal (addAddon furyDDR5 2 "e7" two_addons)
  == addonTotal two_addons + 2190 * 2
  /\ addonTotal (addAddon aoc24G2_repriced 2 "e7" two_addons)
     == addonTotal two_addons + 4490 * 2.
Proof.
  destruct (addAddon_raises_total furyDDR5 2 "e7" two_addons) as [Hnew _].
  destruct (addAddon_raises_total aoc24G2_repriced 2 "e7" two_addons)
    as [_ Hold].
  split.
  - apply Hnew. reflexivity.
  - apply (Hold {| entry_id := "e1"; product := aoc24G2; qty := 1 |}).
    + unfold one_entry_per_product. cbn.
      repeat (constructor;
              [rewrite ?elem_of_cons, elem_of_nil; intuition discriminate|]).
      constructor.
    + reflexivity.
Defined.

Lemma filter_split_sum (k : AddonEntry -> bool) (l : list AddonEntry) :
  sumQ (map line_amount l)
  == sumQ (map line_amount (List.filter (fun a => negb (k a)) l))
     + sumQ (map line_amount (List.filter k l)).
Proof.
  induction l as [|a l IH]; unfold sumQ in *; cbn; [ring|].
  destruct (k a); cbn; rewrite IH; ring.
Qed.

(** X20.  [removeAddon] removes every entry with the given entry id and no
    other: what remains are the entries of the selection with another id,
    and the add-on total drops by the amounts of the removed entries. *)
Theorem removeAddon_removes_lines (i : string) (prev : BuildState) :
  base (removeAddon i prev) = base prev
  /\ (forall a : AddonEntry,
        In a (addons (removeAddon i prev))
        <-> In a (addons prev) /\ entry_id a <> i)
  /\ addonTotal prev
     == addonTotal (removeAddon i prev)
        + sumQ (map line_amount (entries_with_id i (addons prev))).
Proof.
  split; [reflexivity|]. split.
  - intros a. unfold removeAddon. cbn [addons]. rewrite List.filter_In.
    rewrite negb_true_iff, String.eqb_neq. reflexivity.
  - rewrite !addonTotal_lines. unfold removeAddon, entries_with_id.
    cbn [addons]. apply filter_split_sum.
Qed.

Lemma removeAddon_removes_lines_witness :
  In {| entry_id := "e2"; product := hdmiCable; qty := 2 |}
     (addons (removeAddon "e1" two_addons))
  /\ addonTotal two_addons
     == addonTotal (removeAddon "e1" two_addons) + 4490 * 1.
Proof.
  destruct (removeAddon_removes_lines "e1" two_addons) as (_ & Hin & Htot).
  split.
  - apply Hin. split; [right; left; reflexivity | discriminate].
  - rewrite Htot. reflexivity.
Defined.

(** ** Facts about the pickers *)

Lemma byCatRaw_from (inventory : list Product)
    (m : BaseCategory -> list Product) (c : BaseCategory) :
  fold_left (fun m p =>
               match category p with
               | Base c => if Qltb 0 (stock p) then push_cat c p m else m
               | Addon _ => m
               end) inventory m c
  = m c ++ List.filter (stocked_in c) inventory.
Proof.
  revert m. induction inventory as [|p l IH]; intros m; cbn [fold_left].
  - cbn. now rewrite app_nil_r.
  - rewrite IH. cbn [List.filter]. unfold stocked_in at 2.
    destruct (category p) as [c'|c'].
    + destruct (Qltb 0 (stock p)).
      * unfold push_cat. destruct (decide (c = c')) as [->|Hne].
        -- rewrite bool_decide_eq_true_2 by reflexivity. cbn [andb].
           now rewrite <- app_assoc.
        -- rewrite bool_decide_eq_false_2 by congruence. reflexivity.
      * now rewrite andb_false_r.
    + rewrite bool_decide_eq_false_2 by discriminate. reflexivity.
Qed.

(** The raw candidate list of a base category holds exactly the
    inventory products of that category whose stock is positive, in
    inventory order; products out of stock are never offered. *)
Theorem byCatRaw_in_stock (inventory : list Product) (c : BaseCategory) :
  byCatRaw inventory c = List.filter (stocked_in c) inventory.
Proof. unfold byCatRaw. now rewrite byCatRaw_from. Qed.

Lemma addonsByCat_from (inventory : list Product)
    (m : AddonCategory -> list Product) (c : AddonCategory) :
  fold_left (fun m p =>
               match category p with
               | Addon c => if Qltb 0 (stock p) then push_cat c p m else m
               | Base _ => m
               end) inventory m c
  = m c ++ List.filter (stocked_addon c) inventory.
Proof.
  revert m. induction inventory as [|p l IH]; intros m; cbn [fold_left].
  - cbn. now rewrite app_nil_r.
  - rewrite IH. cbn [List.filter]. unfold stocked_addon at 2.
    destruct (category p) as [c'|c'].
    + rewrite bool_decide_eq_false_2 by discriminate. reflexivity.
    + destruct (Qltb 0 (stock p)).
      * unfold push_cat. destruct (decide (c = c')) as [->|Hne].
        -- rewrite bool_decide_eq_true_2 by reflexivity. cbn [andb].
           now rewrite <- app_assoc.
        -- rewrite bool_decide_eq_false_2 by congruence. reflexivity.
      * now rewrite andb_false_r.
Qed.

Lemma addonsByCat_in_stock (inventory : list Product) (c : AddonCategory) :
  addonsByCat inventory c = List.filter (stocked_addon c) inventory.
Proof. unfold addonsByCat. now rewrite addonsByCat_from. Qed.

Lemma find_id_Some ident items p :
  find_id ident items = Some p -> In p items /\ id p = ident.
Proof.
  unfold find_id. intros [Hin Hid]%List.find_some.
  split; [exact Hin | now apply String.eqb_eq].
Qed.

(** X21.  Whatever a category drop-down of the base picker puts into the
    selection is an inventory product of that category, in stock, with the
    chosen id, that passes the current filters; the entry ["__none__"]
    empties the slot; the other slots and the add-ons are untouched. *)
Theorem picked_part_is_valid_candidate (cat : BaseCategory) (ident : string)
    (inventory : list Product) (filters : AttrFilters) (prev : BuildState) :
  let next := BasePicker_onValueChange cat ident inventory filters prev in
  (forall p : Product,
     base next !! cat = Some p ->
     In p inventory /\ category p = Base cat /\ 0 < stock p
     /\ id p = ident /\ keep cat filters p = true)
  /\ (ident = "__none__" -> base next !! cat = None)
  /\ (forall c : BaseCategory, c <> cat -> base next !! c = base prev !! c)
  /\ addons next = addons prev.
Proof.
  cbv zeta. unfold BasePicker_onValueChange.
  destruct (String.eqb_spec ident "__none__") as [Hnone|Hsome].
  - cbn [selectBase base addons]. split; [|split; [|split]].
    + intros p. rewrite lookup_delete_eq. discriminate.
    + intros _. apply lookup_delete_eq.
    + intros c Hc. now apply lookup_delete_ne.
    + reflexivity.
  - destruct (find_id ident (byCat inventory filters cat)) as [p0|] eqn:Hfind;
      cbn [selectBase base addons]; (split; [|split; [|split]]);
      try reflexivity; try (intros Hn; contradiction).
    + intros p. rewrite lookup_insert_eq. intros [= <-].
      apply find_id_Some in Hfind as [Hin Hid].
      unfold byCat in Hin. apply applyAttrFilters_In in Hin as [Hin Hk].
      rewrite byCatRaw_in_stock in Hin.
      apply List.filter_In in Hin as [Hin Hst].
      unfold stocked_in in Hst. apply andb_true_iff in Hst as [Hc Hs].
      apply bool_decide_eq_true_1 in Hc. apply Qltb_lt in Hs. tauto.
    + intros c Hc. now apply lookup_insert_ne.
    + intros p. rewrite lookup_delete_eq. discriminate.
    + intros c Hc. now apply lookup_delete_ne.
Qed.

Lemma picked_part_is_valid_candidate_witness :
  In b760m demo_inventory /\ category b760m = Base Motherboard
  /\ 0 < stock b760m /\ id b760m = "mb2"
  /\ keep Motherboard (deriveFiltersFromSelection (base i5_selection) noFilters)
       b760m = true.
Proof.
  apply (proj1 (picked_part_is_valid_candidate Motherboard "mb2" demo_inventory
                  (deriveFiltersFromSelection (base i5_selection) noFilters)
                  i5_selection) b760m).
  reflexivity.
Defined.

(** ** Invariants of the builder screen *)

Lemma Qmax_1_le (v : Q) : 1 <= Qmax 1 v.
Proof. apply Q.le_max_l. Qed.

Lemma addAddon_quantities p q fresh prev :
  1 <= q -> quantities_positive prev ->
  quantities_positive (addAddon p q fresh prev).
Proof.
  unfold quantities_positive, addAddon. intros Hq Hall.
  destruct (List.find (same_product p) (addons prev)) as [e|]; cbn [addons].
  - apply Forall_forall. intros a' [a [<- Ha]]%list_elem_of_In%in_map_iff.
    apply list_elem_of_In in Ha.
    pose proof (proj1 (Forall_forall _ _) Hall a Ha) as H1.
    destruct (same_product p a); [|exact H1]. cbn [qty].
    eapply Qle_trans; [exact H1|].
    rewrite <- (Qplus_0_r (qty a)) at 1.
    apply Qplus_le_compat; [apply Qle_refl|].
    eapply Qle_trans; [|exact Hq]. discriminate.
  - apply Forall_app. split; [exact Hall|]. repeat constructor. exact Hq.
Qed.

Lemma perform_quantities inventory act prev :
  quantities_positive prev -> quantities_positive (perform inventory act prev).
Proof.
  intros Hall. destruct act; cbn [perform].
  - unfold BasePicker_onValueChange. now destruct (String.eqb _ _).
  - exact Hall.
  - unfold AddonsPicker_add. destruct (find_id _ _); [|exact Hall].
    destruct (Qltb q 1) eqn:Hq; [exact Hall|].
    apply addAddon_quantities; [|exact Hall].
    apply Qnot_lt_le. rewrite <- Qltb_lt. congruence.
  - unfold quantities_positive, AddonsPicker_onQtyChange, updateAddonQty.
    cbn [addons].
    apply Forall_forall. intros a' [a [<- Ha]]%list_elem_of_In%in_map_iff.
    apply list_elem_of_In in Ha.
    destruct (String.eqb (entry_id a) i); cbn [qty]; [apply Qmax_1_le|].
    exact (proj1 (Forall_forall _ _) Hall a Ha).
  - unfold quantities_positive, removeAddon. cbn [addons].
    apply Forall_forall. intros a Ha%list_elem_of_In%List.filter_In.
    destruct Ha as [Ha _]. apply list_elem_of_In in Ha.
    exact (proj1 (Forall_forall _ _) Hall a Ha).
  - destruct (category p); [exact Hall|].
    unfold quantities_positive, searchAddOption. cbn [addons].
    apply Forall_app. split; [exact Hall|]. repeat constructor. discriminate.
  - constructor.
Qed.

Lemma run_snoc inventory acts a :
  run inventory (acts ++ [a]) = perform inventory a (run inventory acts).
Proof. unfold run. now rewrite fold_left_app. Qed.

(** X22.  Through the builder screen every add-on quantity stays at least 1:
    the picker refuses quantities below 1, the quantity field clamps its
    input with [Math.max(1, ...)], and the search dialog adds with quantity
    1; so after any run of updates from the empty selection no entry has a
    zero or negative quantity. *)
Theorem quantities_stay_positive (inventory : list Product)
    (acts : list Action) :
  quantities_positive (run inventory acts).
Proof.
  induction acts as [|a acts IH] using rev_ind.
  - constructor.
  - rewrite run_snoc. now apply perform_quantities.
Qed.

Lemma perform_one_entry inventory a prev :
  not_search_option a ->
  one_entry_per_product prev -> one_entry_per_product (perform inventory a prev).
Proof.
  intros Ha Hone. destruct a; cbn [perform].
  - unfold BasePicker_onValueChange. now destruct (String.eqb _ _).
  - exact Hone.
  - unfold AddonsPicker_add. destruct (find_id _ _); [|exact Hone].
    destruct (Qltb q 1); [exact Hone|]. now apply addAddon_preserves.
  - now apply updateAddonQty_preserves.
  - now apply removeAddon_preserves.
  - cbn in Ha. destruct (category p); [exact Hone | contradiction].
  - apply resetSpec_one_entry.
Qed.

(** X23.  Apart from the add-as-option button of the search dialog, every
    update of the builder screen keeps at most one add-on entry per product
    id: a run of updates without that button ends in a selection with one
    entry per product. *)
Theorem one_entry_without_search_option (inventory : list Product)
    (acts : list Action) :
  Forall not_search_option acts ->
  one_entry_per_product (run inventory acts).
Proof.
  induction acts as [|a acts IH] using rev_ind; intros Hall.
  - apply resetSpec_one_entry.
  - apply Forall_app in Hall as [Hacts Ha].
    apply Forall_cons in Ha as [Ha _].
    rewrite run_snoc. apply perform_one_entry; [exact Ha | now apply IH].
Qed.

Lemma one_entry_without_search_option_witness :
  one_entry_per_product
    (run demo_inventory
       [ ActAdd Monitor "mon1" 1 "e1"; ActAdd Monitor "mon1" 2 "e2";
         ActQty "e1" (Some 0); ActSelect CPU "cpu1" noFilters;
         ActSearch tufB650 "e3" ]).
Proof.
  apply one_entry_without_search_option.
  repeat constructor.
Defined.

(** ** Facts about the inventory *)

Lemma save_at_index p (l : list Product) (idx : nat) :
  findIndex (fun x => String.eqb (id x) (id p)) l = Some idx ->
  find_id (id p) (<[idx := p]> l) = Some p
  /\ (forall ident, ident <> id p ->
        find_id ident (<[idx := p]> l) = find_id ident l)
  /\ inventory_ids (<[idx := p]> l) = inventory_ids l.
Proof.
  revert idx. induction l as [|x l IH]; intros idx; [discriminate|].
  cbn [findIndex]. destruct (String.eqb_spec (id x) (id p)) as [Heq|Hne].
  - intros [= <-]. change (<[0%nat := p]> (x :: l)) with (p :: l).
    unfold find_id. cbn [List.find].
    rewrite String.eqb_refl. split; [reflexivity|]. split.
    + intros ident Hi.
      rewrite (proj2 (String.eqb_neq (id p) ident)) by congruence.
      now rewrite (proj2 (String.eqb_neq (id x) ident)) by congruence.
    + unfold inventory_ids. cbn [map]. now rewrite Heq.
  - destruct (findIndex _ l) as [idx'|] eqn:Hfi; [|discriminate].
    intros [= <-]. destruct (IH idx' eq_refl) as (H1 & H2 & H3).
    change (<[S idx' := p]> (x :: l)) with (x :: <[idx' := p]> l).
    unfold find_id in *. cbn [List.find].
    rewrite (proj2 (String.eqb_neq (id x) (id p))) by exact Hne.
    split; [exact H1|]. split.
    + intros ident Hi. destruct (String.eqb (id x) ident); [reflexivity|].
      now apply H2.
    + unfold inventory_ids in *. cbn [map]. now rewrite H3.
Qed.

Lemma findIndex_None_ids p (l : list Product) :
  findIndex (fun x => String.eqb (id x) (id p)) l = None
  <-> ~ In (id p) (inventory_ids l).
Proof.
  induction l as [|x l IH]; cbn; [tauto|].
  destruct (String.eqb_spec (id x) (id p)) as [Heq|Hne].
  - split; [discriminate | intros H; exfalso; apply H; now left].
  - destruct (findIndex _ l); cbn.
    + split; [discriminate|]. intros H. exfalso.
      assert (Hn : ~ In (id p) (inventory_ids l)) by tauto.
      apply IH in Hn. discriminate.
    + split; [|reflexivity]. intros _ [H|H]; [contradiction|].
      now apply (proj1 IH).
Qed.

(** X24.  After [saveProduct] a lookup by the product's id finds the saved
    product, and a lookup by any other id finds what it found before. *)
Theorem saveProduct_then_find (p : Product) (prev : list Product) :
  find_id (id p) (saveProduct p prev) = Some p
  /\ forall ident : string,
       ident <> id p ->
       find_id ident (saveProduct p prev) = find_id ident prev.
Proof.
  unfold saveProduct.
  destruct (findIndex _ prev) as [idx|] eqn:Hfi.
  - destruct (save_at_index p prev idx Hfi) as (H1 & H2 & _). now split.
  - unfold find_id. cbn [List.find]. rewrite String.eqb_refl.
    split; [reflexivity|]. intros ident Hi.
    now rewrite (proj2 (String.eqb_neq (id p) ident)) by congruence.
Qed.

Lemma saveProduct_then_find_witness :
  find_id "mb1" (saveProduct ddr4Board demo_inventory) = Some tufB650.
Proof.
  rewrite (proj2 (saveProduct_then_find ddr4Board demo_inventory) "mb1").
  - reflexivity.
  - discriminate.
Defined.

(** X25.  [saveProduct] replaces in place or prepends: when the id is
    already in the inventory the list of ids is unchanged (same length, same
    order), otherwise the new id is put in front; so an inventory with
    unique ids keeps unique ids. *)
Theorem saveProduct_keeps_ids_unique (p : Product) (prev : list Product) :
  (In (id p) (inventory_ids prev) ->
   inventory_ids (saveProduct p prev) = inventory_ids prev)
  /\ (~ In (id p) (inventory_ids prev) -> saveProduct p prev = p :: prev)
  /\ (NoDup (inventory_ids prev) -> NoDup (inventory_ids (saveProduct p prev))).
Proof.
  unfold saveProduct.
  destruct (findIndex _ prev) as [idx|] eqn:Hfi.
  - destruct (save_at_index p prev idx Hfi) as (_ & _ & H3).
    split; [intros _; exact H3|]. split.
    + intros Hn. apply findIndex_None_ids in Hn. congruence.
    + now rewrite H3.
  - split; [|split].
    + intros Hin. apply findIndex_None_ids in Hfi. contradiction.
    + reflexivity.
    + intros Hnd. cbn. apply NoDup_cons. split; [|exact Hnd].
      rewrite list_elem_of_In. now apply findIndex_None_ids.
Qed.

Lemma saveProduct_keeps_ids_unique_witness :
  inventory_ids (saveProduct aoc24G2_repriced demo_inventory)
  = inventory_ids demo_inventory
  /\ saveProduct ddr4Board demo_inventory = ddr4Board :: demo_inventory.
Proof.
  destruct (saveProduct_keeps_ids_unique aoc24G2_repriced demo_inventory)
    as (Hin & _ & _).
  destruct (saveProduct_keeps_ids_unique ddr4Board demo_inventory)
    as (_ & Hnew & _).
  split.
  - apply Hin. vm_compute. tauto.
  - apply Hnew. vm_compute. intuition discriminate.
Defined.

(** X26.  [deleteProduct] removes every product with the given id and only
    those: afterwards a lookup by that id finds nothing and a lookup by any
    other id finds what it found before; deleting a product that was just
    saved under a new id gives back the inventory. *)
Theorem deleteProduct_then_find (ident : string) (prev : list Product) :
  find_id ident (deleteProduct ident prev) = None
  /\ (forall other : string,
        other <> ident ->
        find_id other (deleteProduct ident prev) = find_id other prev)
  /\ (forall p : Product,
        id p = ident -> ~ In ident (inventory_ids prev) ->
        deleteProduct ident (saveProduct p prev) = prev).
Proof.
  split; [|split].
  - unfold find_id, deleteProduct.
    induction prev as [|x l IH]; cbn; [reflexivity|].
    destruct (String.eqb (id x) ident) eqn:E; cbn; [exact IH|].
    now rewrite E.
  - intros other Ho. unfold find_id, deleteProduct.
    induction prev as [|x l IH]; cbn; [reflexivity|].
    destruct (String.eqb_spec (id x) ident) as [Heq|Hne]; cbn.
    + rewrite (proj2 (String.eqb_neq (id x) other)) by congruence. exact IH.
    + destruct (String.eqb (id x) other); [reflexivity | exact IH].
  - intros p <- Hn.
    rewrite (proj1 (proj2 (saveProduct_keeps_ids_unique p prev)) Hn).
    unfold deleteProduct. cbn [List.filter]. rewrite String.eqb_refl.
    cbn [negb]. apply filter_keep_all_in. intros x Hx.
    apply negb_true_iff, String.eqb_neq. intros Heq. apply Hn.
    rewrite <- Heq. unfold inventory_ids. now apply in_map.
Qed.

Lemma deleteProduct_then_find_witness :
  find_id "cpu1" (deleteProduct "mb1" demo_inventory) = Some ryzen5
  /\ deleteProduct "mb3" (saveProduct ddr4Board demo_inventory) = demo_inventory.
Proof.
  destruct (deleteProduct_then_find "mb1" demo_inventory) as (_ & Hother & _).
  destruct (deleteProduct_then_find "mb3" demo_inventory) as (_ & _ & Hround).
  split.
  - rewrite (Hother "cpu1"); [reflexivity | discriminate].
  - apply Hround; [reflexivity|]. vm_compute. intuition discriminate.
Defined.

(** ** Facts about the toggles *)

(** X27.  The required-category button toggles membership and nothing else:
    afterwards the clicked category is required exactly when it was not
    before, every other category is as before, a list without repetitions
    stays without repetitions, and clicking twice on a category that was not
    required gives back the list. *)
Theorem toggleRequired_flips (c : BaseCategory) (required : list BaseCategory) :
  (In c (toggleRequired c required) <-> ~ In c required)
  /\ (forall c' : BaseCategory,
        c' <> c -> (In c' (toggleRequired c required) <-> In c' required))
  /\ (NoDup required -> NoDup (toggleRequired c required))
  /\ (~ In c required ->
      toggleRequired c (toggleRequired c required) = required).
Proof.
  unfold toggleRequired at 1 2 3.
  match goal with
  | |- context [@bool_decide (c ∈ required) ?d] =>
      destruct (@bool_decide (c ∈ required) d) eqn:E
  end;
    [apply bool_decide_eq_true_1 in E as Hin
    |apply bool_decide_eq_false_1 in E as Hnin].
  - apply list_elem_of_In in Hin. split; [|split; [|split]].
    + rewrite List.filter_In, negb_true_iff.
      rewrite bool_decide_eq_true_2 by reflexivity. intuition discriminate.
    + intros c' Hc'. rewrite List.filter_In, negb_true_iff.
      rewrite bool_decide_eq_false_2 by exact Hc'. tauto.
    + intros Hnd. clear Hin E. induction required as [|x l IH]; cbn; [constructor|].
      apply NoDup_cons in Hnd as [Hx Hnd].
      destruct (negb (bool_decide (x = c))); [|now apply IH].
      apply NoDup_cons. split; [|now apply IH].
      rewrite list_elem_of_In, List.filter_In, <- list_elem_of_In. tauto.
    + contradiction.
  - rewrite list_elem_of_In in Hnin. split; [|split; [|split]].
    + rewrite in_app_iff. cbn. tauto.
    + intros c' Hc'. rewrite in_app_iff. cbn. intuition congruence.
    + intros Hnd. apply NoDup_app. split; [exact Hnd|]. split.
      * intros x Hx [->|[]%elem_of_nil]%elem_of_cons.
        apply Hnin. now apply list_elem_of_In.
      * apply NoDup_singleton.
    + intros _. unfold toggleRequired. rewrite E.
      rewrite (bool_decide_eq_true_2 (c ∈ required ++ [c]))
        by (apply list_elem_of_In, in_app_iff; right; now left).
      rewrite List.filter_app. cbn [List.filter].
      rewrite bool_decide_eq_true_2 by reflexivity. cbn [negb].
      rewrite app_nil_r. apply filter_keep_all_in. intros x Hx.
      apply negb_true_iff, bool_decide_eq_false_2. congruence.
Qed.

Lemma toggleRequired_flips_witness :
  toggleRequired GPU (toggleRequired GPU [CPU; Motherboard; PSU])
  = [CPU; Motherboard; PSU]
  /\ NoDup (toggleRequired PSU [CPU; Motherboard; PSU]).
Proof.
  destruct (toggleRequired_flips GPU [CPU; Motherboard; PSU])
    as (_ & _ & _ & Htwice).
  destruct (toggleRequired_flips PSU [CPU; Motherboard; PSU])
    as (_ & _ & Hnd & _).
  split.
  - apply Htwice. cbn. intuition discriminate.
  - apply Hnd.
    repeat (constructor;
            [rewrite ?elem_of_cons, elem_of_nil; intuition discriminate|]).
    constructor.
Defined.

Lemma splice_first_perm (value : string) (arr : list string) :
  In value arr -> Permutation arr (value :: splice_first value arr).
Proof.
  induction arr as [|x l IH]; [intros []|]. cbn [splice_first].
  destruct (String.eqb_spec x value) as [->|Hne]; [reflexivity|].
  intros [Hx|Hin]; [contradiction|].
  rewrite (IH Hin) at 1. apply perm_swap.
Qed.

Lemma splice_first_last (value : string) (arr : list string) :
  ~ In value arr -> splice_first value (arr ++ [value]) = arr.
Proof.
  induction arr as [|x l IH]; intros Hn; cbn.
  - now rewrite String.eqb_refl.
  - rewrite (proj2 (String.eqb_neq x value)) by (intros ->; apply Hn; now left).
    rewrite IH; [reflexivity|]. intros H. apply Hn. now right.
Qed.

Lemma splice_first_split (value : string) (arr : list string) :
  In value arr ->
  exists front back : list string,
    arr = front ++ value :: back
    /\ ~ In value front
    /\ splice_first value arr = front ++ back.
Proof.
  induction arr as [|x l IH]; [intros []|]. cbn [splice_first].
  destruct (String.eqb_spec x value) as [->|Hne].
  - intros _. exists [], l. repeat split. intros [].
  - intros [Hx|Hin]; [contradiction|].
    destruct (IH Hin) as (front & back & -> & Hfront & ->).
    exists (x :: front), back. repeat split.
    intros [Hx|Hx]; [contradiction | now apply Hfront].
Qed.

(** X28.  [toggleInArray] on a key without an array starts a one-element
    array; on an array that holds the value it takes out the first
    occurrence of the value and keeps every other element in place; on an
    array that does not hold it, it appends the value, and a second click
    gives back the array. *)
Theorem toggleInArray_flips (arr : list string) (value : string) :
  toggleInArray None value = [value]
  /\ (In value arr ->
      exists front back : list string,
        arr = front ++ value :: back
        /\ ~ In value front
        /\ toggleInArray (Some arr) value = front ++ back)
  /\ (~ In value arr ->
      toggleInArray (Some arr) value = arr ++ [value]
      /\ toggleInArray (Some (toggleInArray (Some arr) value)) value = arr)
  /\ (NoDup arr ->
      NoDup (toggleInArray (Some arr) value)
      /\ (In value (toggleInArray (Some arr) value) <-> ~ In value arr)).
Proof.
  unfold toggleInArray. cbn [default]. cbv zeta.
  split; [reflexivity|]. split; [|split].
  - intros Hin. rewrite bool_decide_eq_true_2 by now apply list_elem_of_In.
    now apply splice_first_split.
  - intros Hn.
    rewrite (bool_decide_eq_false_2 (value ∈ arr))
      by now rewrite list_elem_of_In.
    split; [reflexivity|].
    rewrite bool_decide_eq_true_2
      by (apply list_elem_of_In, in_app_iff; right; now left).
    now apply splice_first_last.
  - intros Hnd. destruct (decide (value ∈ arr)) as [Hin|Hn].
    + rewrite bool_decide_eq_true_2 by exact Hin.
      apply list_elem_of_In in Hin.
      pose proof (splice_first_perm value arr Hin) as Hp.
      assert (Hnd' : NoDup (value :: splice_first value arr)).
      { rewrite <- Hp. exact Hnd. }
      apply NoDup_cons in Hnd' as [Hv Hnd']. split; [exact Hnd'|].
      rewrite list_elem_of_In in Hv. tauto.
    + rewrite bool_decide_eq_false_2 by exact Hn.
      rewrite list_elem_of_In in Hn. split.
      * apply NoDup_app. split; [exact Hnd|]. split.
        -- intros x Hx [->|[]%elem_of_nil]%elem_of_cons.
           apply Hn. now apply list_elem_of_In.
        -- apply NoDup_singleton.
      * rewrite in_app_iff. cbn. tauto.
Qed.

Lemma toggleInArray_flips_witness :
  (exists front back : list string,
     ["ITX"; "ATX"; "ITX"] = front ++ "ITX" :: back
     /\ ~ In "ITX" front
     /\ toggleInArray (Some ["ITX"; "ATX"; "ITX"]) "ITX" = front ++ back)
  /\ toggleInArray (Some ["ITX"; "ATX"; "ITX"]) "ITX" = ["ATX"; "ITX"]
  /\ toggleInArray (Some (toggleInArray (Some ["ATX"]) "ITX")) "ITX" = ["ATX"].
Proof.
  destruct (toggleInArray_flips ["ITX"; "ATX"; "ITX"] "ITX") as (_ & Hin & _).
  destruct (toggleInArray_flips ["ATX"] "ITX") as (_ & _ & Hout & _).
  split; [|split].
  - apply Hin. left. reflexivity.
  - reflexivity.
  - apply Hout. cbn. intuition discriminate.
Defined.

(** ** Facts about sorting *)

Section Sorting.
Context {A : Type} (cmp : A -> A -> Q).

Lemma insert_by_perm (x : A) (l : list A) :
  Permutation (insert_by cmp x l) (x :: l).
Proof.
  induction l as [|y l IH]; cbn [insert_by]; [reflexivity|].
  destruct (Qltb 0 (cmp x y)); [|reflexivity].
  rewrite IH. apply perm_swap.
Qed.

Lemma js_sort_perm (l : list A) : Permutation (js_sort cmp l) l.
Proof.
  induction l as [|x l IH]; cbn; [reflexivity|].
  rewrite insert_by_perm. now rewrite IH.
Qed.

Variable R : A -> A -> Prop.
Hypothesis R_trans : forall x y z, R x y -> R y z -> R x z.
Hypothesis cmp_behind : forall x y, Qltb 0 (cmp x y) = true -> R y x.
Hypothesis cmp_before : forall x y, Qltb 0 (cmp x y) = false -> R x y.

Lemma insert_by_ordered (x : A) (l : list A) :
  ordered_by R l -> ordered_by R (insert_by cmp x l).
Proof.
  induction l as [|y l IH]; cbn [insert_by ordered_by].
  - intros _. split; [constructor | exact I].
  - intros [Hy Hl]. destruct (Qltb 0 (cmp x y)) eqn:E; cbn [ordered_by].
    + split; [|now apply IH].
      eapply Permutation_Forall; [symmetry; apply insert_by_perm|].
      constructor; [now apply cmp_behind | exact Hy].
    + split; [|split; assumption].
      constructor; [now apply cmp_before|].
      eapply Forall_impl; [exact Hy|]. intros z Hz.
      eapply R_trans; [apply cmp_before, E | exact Hz].
Qed.

Lemma js_sort_ordered (l : list A) : ordered_by R (js_sort cmp l).
Proof.
  induction l as [|x l IH]; cbn; [exact I|]. now apply insert_by_ordered.
Qed.

End Sorting.

Lemma Qltb_minus (a b : Q) : Qltb 0 (a - b) = true <-> b < a.
Proof.
  rewrite Qltb_lt. split; intros H.
  - apply (Qplus_lt_l _ _ (- b)). now rewrite Qplus_opp_r.
  - apply (Qplus_lt_l _ _ (- b)) in H. now rewrite Qplus_opp_r in H.
Qed.

Lemma Qltb_minus_false (a b : Q) : Qltb 0 (a - b) = false -> a <= b.
Proof.
  intros H. apply Qnot_lt_le. rewrite <- Qltb_minus. congruence.
Qed.

Lemma sort_ascending (key : Product -> Q) (l : list Product) :
  ascending_by key (js_sort (fun x y => key x - key y) l).
Proof.
  apply js_sort_ordered.
  - intros x y z. apply Qle_trans.
  - intros x y H. apply Qltb_minus in H. now apply Qlt_le_weak.
  - intros x y H. now apply Qltb_minus_false.
Qed.

Lemma sort_descending (key : Product -> Q) (l : list Product) :
  descending_by key (js_sort (fun x y => key y - key x) l).
Proof.
  apply js_sort_ordered.
  - intros x y z H1 H2. eapply Qle_trans; eassumption.
  - intros x y H. apply Qltb_minus in H. now apply Qlt_le_weak.
  - intros x y H. now apply Qltb_minus_false.
Qed.

(** X29.  [sortProducts] returns the same products in another order: the
    result is a permutation of the input in every mode, ascending by price
    for [priceAsc], descending by price for [priceDesc], descending by stock
    for [stockDesc], and the input itself for the default mode. *)
Theorem sortProducts_sorts (localeCompare : string -> string -> Q)
    (arr : list Product) :
  (forall mode : SortMode,
     Permutation (sortProducts localeCompare arr mode) arr)
  /\ ascending_by price (sortProducts localeCompare arr priceAsc)
  /\ descending_by price (sortProducts localeCompare arr priceDesc)
  /\ descending_by stock (sortProducts localeCompare arr stockDesc)
  /\ sortProducts localeCompare arr defaultMode = arr.
Proof.
  split; [|split; [|split; [|split]]].
  - intros []; cbn; try reflexivity; apply js_sort_perm.
  - apply sort_ascending.
  - apply sort_descending.
  - apply sort_descending.
  - reflexivity.
Qed.

Lemma with_key_insert (key : Product -> Q) (cmp : Product -> Product -> Q)
    (v : Q) (x : Product) (l : list Product) :
  (forall x y, Qltb 0 (cmp x y) = true -> ~ key x == key y) ->
  with_key key v (insert_by cmp x l) = with_key key v (x :: l).
Proof.
  intros Hcmp. induction l as [|y l IH]; [reflexivity|].
  cbn [insert_by]. destruct (Qltb 0 (cmp x y)) eqn:E; [|reflexivity].
  unfold with_key in *. cbn [List.filter] in *. rewrite IH.
  destruct (Qeq_bool (key x) v) eqn:Ex, (Qeq_bool (key y) v) eqn:Ey;
    try reflexivity.
  exfalso. apply (Hcmp x y E).
  apply Qeq_bool_eq in Ex, Ey. now rewrite Ex, Ey.
Qed.

Lemma with_key_sort (key : Product -> Q) (cmp : Product -> Product -> Q)
    (v : Q) (l : list Product) :
  (forall x y, Qltb 0 (cmp x y) = true -> ~ key x == key y) ->
  with_key key v (js_sort cmp l) = with_key key v l.
Proof.
  intros Hcmp. induction l as [|x l IH]; [reflexivity|].
  cbn [js_sort fold_right]. rewrite (with_key_insert key cmp v x _ Hcmp).
  unfold with_key in *. cbn [List.filter]. fold (js_sort cmp l).
  now rewrite IH.
Qed.

(** X30.  Sorting by price or by stock is stable: the products that share a
    price (a stock level) stay in the order the input had them. *)
Theorem sortProducts_stable (localeCompare : string -> string -> Q)
    (arr : list Product) (v : Q) :
  with_key price v (sortProducts localeCompare arr priceAsc)
  = with_key price v arr
  /\ with_key price v (sortProducts localeCompare arr priceDesc)
     = with_key price v arr
  /\ with_key stock v (sortProducts localeCompare arr stockDesc)
     = with_key stock v arr.
Proof.
  split; [|split]; cbn [sortProducts]; apply with_key_sort; intros x y H Heq;
    apply Qltb_minus in H; rewrite Heq in H; exact (Qlt_irrefl _ H).
Qed.
